(** * Smart Email Generator: prompt assembly and generation pipelines

    A shallow embedding of [app.py] and [advanced_features.py].

    The program is prompt-string assembly plus calls into LangChain
    ([PromptTemplate], [LLMChain], [SequentialChain],
    [ConversationBufferMemory]) and Streamlit ([st.session_state],
    [st.cache_resource]).  The two files of the repository are embedded
    definition by definition; the library operations they call are
    modelled in the modules [Py] and [LangChain] and at the head of [App]
    below, each with the part of the library's behaviour it covers written
    next to it.

    - A Python [str] is a list of Unicode code points ([pystr]).
    - A dict with string keys and string values is a [gmap pystr pystr]
      ([dict]); the keyword arguments of a chain, which may hold an [int]
      next to strings, are a [gmap pystr value] ([values]).
    - The hosted model is an oracle [Backend]: its answer to a prompt may
      depend on the client and on every call made before.  Each call is
      appended to a trace, so that "before any backend call" and "the
      second prompt" are statements about that trace.
    - Exceptions are values of [exn]; a computation returns [exn + A]
      together with the state it leaves behind. *)

From Stdlib Require Import String Ascii ZArith NArith List QArith DecimalString.
From stdpp Require Import gmap list.

Open Scope string_scope.
Open Scope list_scope.
Open Scope Z_scope.

(** ** Python strings *)

Abbreviation pystr := (list N).
Abbreviation dict := (gmap (list N) (list N)).

Module Py.

(** A source literal (ASCII only in this repository) as code points. *)
Definition py (s : string) : pystr := map N_of_ascii (list_ascii_of_string s).

Definition LF : pystr := [10%N].

(** [sep.join(parts)] *)
Fixpoint join (sep : pystr) (parts : list pystr) : pystr :=
  match parts with
  | [] => []
  | [p] => p
  | p :: rest => p ++ sep ++ join sep rest
  end.

(** A triple-quoted literal, given line by line. *)
Definition text (lines : list string) : pystr := join LF (map py lines).

(** [a == b] on strings. *)
Fixpoint str_eqb (a b : pystr) : bool :=
  match a, b with
  | [], [] => true
  | x :: a', y :: b' => N.eqb x y && str_eqb a' b'
  | _, _ => false
  end.

(** [needle in hay] *)
Definition contains (hay needle : pystr) : Prop :=
  exists pre suf, hay = pre ++ needle ++ suf.

(** [str.isspace] for one code point: the code points CPython's
    [Py_UNICODE_ISSPACE] accepts. *)
Definition isspace (c : N) : bool :=
  ((9 <=? c) && (c <=? 13) || (28 <=? c) && (c <=? 32)
   || (c =? 133) || (c =? 160) || (c =? 5760)
   || (8192 <=? c) && (c <=? 8202)
   || (c =? 8232) || (c =? 8233) || (c =? 8239) || (c =? 8287)
   || (c =? 12288))%N.

Fixpoint lstrip (s : pystr) : pystr :=
  match s with
  | c :: s' => if isspace c then lstrip s' else s
  | [] => []
  end.

Definition rstrip (s : pystr) : pystr := rev (lstrip (rev s)).

(** [s.strip()] *)
Definition strip (s : pystr) : pystr := rstrip (lstrip s).

(** The decimal text of an integer. *)
Definition decimal (n : Z) : pystr := py (NilZero.string_of_int (Z.to_int n)).

(** The number of decimal digits of an integer, its sign left out. *)
Definition digit_count (n : Z) : nat := length (decimal (Z.abs n)).

(** The interpreter's limit on the digits of an [int] turned into text
    ([sys.get_int_max_str_digits()], 4300 unless it is reconfigured). *)
Definition int_max_str_digits : nat := 4300.

(** The objects the program passes as keyword arguments: strings, and
    the paragraph count, an [int]. *)
Inductive value : Type :=
| Str (s : pystr)
| Int (n : Z).

(** The text an object stands for in a prompt. *)
Definition shown_as (v : value) : pystr :=
  match v with
  | Str s => s
  | Int n => decimal n
  end.

(** [s.lower()] restricted to what is table-free: the letters A-Z.  The
    full Unicode case mapping is a parameter of the functions that call
    [lower]; this instance agrees with it on ASCII text. *)
Definition ascii_lower (s : pystr) : pystr :=
  map (fun c => if ((65 <=? c) && (c <=? 90))%N then (c + 32)%N else c) s.

(** Brace characters, the delimiters of a placeholder marker. *)
Definition is_brace (c : N) : bool := ((c =? 123) || (c =? 125))%N.

Fixpoint braces (s : pystr) : nat :=
  match s with
  | [] => 0%nat
  | c :: s' => ((if is_brace c then 1 else 0) + braces s')%nat
  end.

End Py.
Import Py.

Abbreviation values := (gmap (list N) Py.value).

(** ** Backend clients *)

(** A client, by the settings it is built with. *)
Inductive LLM : Type :=
| OpenAI (temperature : Q) (max_tokens : Z) (model_name openai_api_key : pystr)
| ChatOpenAI (temperature : Q) (model_name openai_api_key : pystr)
| ChatAnthropic (temperature : Q) (max_tokens : Z) (model anthropic_api_key : pystr)
| ChatGroq (temperature : Q) (max_tokens : Z) (model_name groq_api_key : pystr).

(** ** Exceptions *)

(** What a [ValueError] is about.  The text of the message is not
    modelled: it differs between versions of the interpreter and of the
    library, and where it lists keys it prints them as a set. *)
Inductive reason : Type :=
| SingleClosingBrace                            (* a lone [}] in a format string *)
| SingleOpeningBrace                            (* a [{] at the end of a format string *)
| MissingClosingBrace                           (* a field that is not closed *)
| BraceInFieldName                              (* a [{] inside a field name *)
| IntegerTooLong (limit : nat)                  (* int to text beyond the digit limit *)
| MissingSomeInputKeys (keys : list pystr)      (* [Chain._validate_inputs] *)
| MissingRequiredInputKeys (keys : list pystr)  (* building a [SequentialChain] *)
| KeysAlreadyExist (keys : list pystr)          (* building a [SequentialChain] *)
| OutputVariablesNotFound (keys : list pystr).  (* building a [SequentialChain] *)

Inductive exn : Type :=
| KeyError (key : pystr)         (* a placeholder or input key with no value *)
| ValueError (why : reason)
| ClientError (refused : LLM)    (* raised by the constructor of a client *)
| Unmodelled                     (* behaviour outside the model, see [LangChain] *)
| BackendError (message : pystr). (* whatever the completion call raised *)

(** [format(v, '')], as the formatter calls it on each value: a string
    is taken as it is, an [int] is printed in decimal unless it has more
    digits than the interpreter allows. *)
Definition str_of_int (n : Z) : exn + pystr :=
  if (int_max_str_digits <? digit_count n)%nat
  then inl (ValueError (IntegerTooLong int_max_str_digits))
  else inr (decimal n).

Definition format_value (v : value) : exn + pystr :=
  match v with
  | Str s => inr s
  | Int n => str_of_int n
  end.

(** ** The completion oracle *)

(** One completion call: the client used and the prompt sent. *)
Abbreviation Call := (LLM * list N)%type.
Abbreviation Trace := (list (LLM * list N)).

(** The hosted model: given the calls made so far, the client and the
    prompt, it answers with text or raises. *)
Abbreviation Backend := (list (LLM * list N) -> LLM -> list N -> exn + list N).

(** ** LangChain *)

Module LangChain.

(** *** Computations that call the backend

    State is the trace of calls; a raised exception keeps the trace as
    it was when raised. *)
Definition M (A : Type) : Type := Trace -> (exn + A) * Trace.

Definition ret {A} (a : A) : M A := fun tr => (inr a, tr).
Definition raise {A} (e : exn) : M A := fun tr => (inl e, tr).
Definition bind {A B} (m : M A) (k : A -> M B) : M B :=
  fun tr => match m tr with
            | (inr a, tr') => k a tr'
            | (inl e, tr') => (inl e, tr')
            end.
Definition lift {A} (r : exn + A) : M A := fun tr => (r, tr).

Notation "'let*' x := m 'in' k" := (bind m (fun x => k))
  (at level 10, x name, m at level 100, k at level 200).

(** *** PromptTemplate with the default "f-string" format

    [PromptTemplate.format] hands the template to
    [string.Formatter]: literal text is copied, [{{] and [}}] stand for
    one brace, [{name}] is replaced by the text of [kwargs[name]] (a
    string as it is, an [int] in decimal, see [format_value]), a missing
    name raises [KeyError], a lone [}] or an unclosed [{] raises
    [ValueError].  The formatter parses lazily and converts each value
    when it reaches its field, so an error is raised only when the scan
    reaches it.  Conversions, format specs, attribute and index access
    and the empty field ([!], [:], [.], [[], [{}]) are not modelled and
    are reported as [Unmodelled]; no template of this repository uses
    them. *)

Record PromptTemplate : Type := {
  input_variables : list pystr;
  template : pystr
}.

Inductive segment : Type :=
| Lit (s : pystr)
| Field (name : pystr).

Inductive mode : Type :=
| InText (lit : pystr)     (* literal text read so far, reversed *)
| InField (name : pystr).  (* field name read so far, reversed *)

Definition flush (lit : pystr) (acc : list segment) : list segment :=
  match lit with
  | [] => acc
  | _ => Lit (rev lit) :: acc
  end.

Definition lbrace : N := 123%N.
Definition rbrace : N := 125%N.

Definition field_special (c : N) : bool :=
  ((c =? 33) || (c =? 58) || (c =? 46) || (c =? 91))%N.

(** The parser of the formatter: the segments read, in order, and the
    error that stops the scan, if any. *)
Fixpoint scan (t : pystr) (m : mode) (acc : list segment)
  : list segment * option exn :=
  match m, t with
  | InText lit, [] => (rev (flush lit acc), None)
  | InText lit, c :: t' =>
      if (c =? lbrace)%N then
        match t' with
        | c' :: t'' =>
            if (c' =? lbrace)%N then scan t'' (InText (lbrace :: lit)) acc
            else scan t' (InField []) (flush lit acc)
        | [] =>
            (rev (flush lit acc), Some (ValueError SingleOpeningBrace))
        end
      else if (c =? rbrace)%N then
        match t' with
        | c' :: t'' =>
            if (c' =? rbrace)%N then scan t'' (InText (rbrace :: lit)) acc
            else (rev (flush lit acc), Some (ValueError SingleClosingBrace))
        | [] =>
            (rev (flush lit acc), Some (ValueError SingleClosingBrace))
        end
      else scan t' (InText (c :: lit)) acc
  | InField name, [] =>
      (rev acc, Some (ValueError MissingClosingBrace))
  | InField name, c :: t' =>
      if (c =? rbrace)%N then
        match name with
        | [] => (rev acc, Some Unmodelled)
        | _ => scan t' (InText []) (Field (rev name) :: acc)
        end
      else if (c =? lbrace)%N then
        (rev acc, Some (ValueError BraceInFieldName))
      else if field_special c then (rev acc, Some Unmodelled)
      else scan t' (InField (c :: name)) acc
  end.

Definition parse (t : pystr) : list segment * option exn := scan t (InText []) [].

(** The formatter's loop over the parsed segments. *)
Fixpoint substitute (segs : list segment) (stop : option exn) (kwargs : values)
  : exn + pystr :=
  match segs with
  | [] => match stop with
          | Some e => inl e
          | None => inr []
          end
  | Lit s :: rest =>
      match substitute rest stop kwargs with
      | inr out => inr (s ++ out)
      | inl e => inl e
      end
  | Field name :: rest =>
      match kwargs !! name with
      | None => inl (KeyError name)
      | Some v =>
          match format_value v with
          | inl e => inl e
          | inr shown =>
              match substitute rest stop kwargs with
              | inr out => inr (shown ++ out)
              | inl e => inl e
              end
          end
      end
  end.

(** [prompt.format], called with the keyword arguments [kwargs] *)
Definition format (p : PromptTemplate) (kwargs : values) : exn + pystr :=
  let '(segs, stop) := parse (template p) in substitute segs stop kwargs.

(** The names of the placeholders of a template, one per occurrence. *)
Definition field_names (segs : list segment) : list pystr :=
  flat_map (fun s => match s with Field n => [n] | Lit _ => [] end) segs.

Definition literals (segs : list segment) : list pystr :=
  flat_map (fun s => match s with Lit l => [l] | Field _ => [] end) segs.

(** *** ConversationBufferMemory

    The buffer is the list of messages; [load_memory_variables] renders
    it with [get_buffer_string] (one line per message, prefixed by the
    speaker) under [memory_key]; [save_context] appends the human input
    found under [input_key] and the single output of the chain, both
    strings (a message made from anything else, or outputs that are not
    a single entry, are outside the model). *)

Inductive message : Type :=
| HumanMessage (content : pystr)
| AIMessage (content : pystr).

Record ConversationBufferMemory : Type := {
  chat_memory : list message;
  memory_key : pystr;
  input_key : pystr;
  human_prefix : pystr;
  ai_prefix : pystr
}.

(** [ConversationBufferMemory(memory_key=..., input_key=...)]: an empty
    buffer, with the library's default prefixes. *)
Definition new_memory (mkey ikey : pystr) : ConversationBufferMemory :=
  {| chat_memory := [];
     memory_key := mkey;
     input_key := ikey;
     human_prefix := py "Human";
     ai_prefix := py "AI" |}.

Definition message_line (human ai : pystr) (m : message) : pystr :=
  match m with
  | HumanMessage c => human ++ py ": " ++ c
  | AIMessage c => ai ++ py ": " ++ c
  end.

Definition get_buffer_string (msgs : list message) (human ai : pystr) : pystr :=
  join LF (map (message_line human ai) msgs).

Definition load_memory_variables (m : ConversationBufferMemory) : values :=
  {[ memory_key m
     := Str (get_buffer_string (chat_memory m) (human_prefix m) (ai_prefix m)) ]}.

Definition save_context (m : ConversationBufferMemory) (inputs outputs : values)
  : exn + ConversationBufferMemory :=
  match inputs !! input_key m with
  | None => inl (KeyError (input_key m))
  | Some (Str input_str) =>
      match map_to_list outputs with
      | [(_, Str output_str)] =>
          inr {| chat_memory := chat_memory m ++ [HumanMessage input_str; AIMessage output_str];
                 memory_key := memory_key m;
                 input_key := input_key m;
                 human_prefix := human_prefix m;
                 ai_prefix := ai_prefix m |}
      | _ => inl Unmodelled
      end
  | Some (Int _) => inl Unmodelled
  end.

(** *** LLMChain *)

Record LLMChain : Type := {
  llm : LLM;
  prompt : PromptTemplate;
  output_key : pystr;
  memory : option ConversationBufferMemory
}.

Definition default_output_key : pystr := py "text".

Definition with_memory (c : LLMChain) (m : ConversationBufferMemory) : LLMChain :=
  {| llm := llm c; prompt := prompt c; output_key := output_key c; memory := Some m |}.

Definition has_key (d : values) (k : pystr) : bool :=
  match d !! k with
  | Some _ => true
  | None => false
  end.

(** [Chain.prep_inputs]: the memory variables are added to the inputs,
    then every input key of the chain must be there; the error names the
    keys that are not. *)
Definition prep_inputs (input_keys : list pystr) (mem : option ConversationBufferMemory)
           (inputs : values) : exn + values :=
  let inputs' :=
    match mem with
    | Some m => load_memory_variables m ∪ inputs
    | None => inputs
    end in
  if forallb (has_key inputs') input_keys then inr inputs'
  else inl (ValueError
              (MissingSomeInputKeys
                 (List.filter (fun k => negb (has_key inputs' k)) input_keys))).

(** [{k: inputs[k] for k in keys}] *)
Fixpoint select (keys : list pystr) (inputs : values) : exn + values :=
  match keys with
  | [] => inr ∅
  | k :: rest =>
      match inputs !! k with
      | None => inl (KeyError k)
      | Some v =>
          match select rest inputs with
          | inr d => inr (<[k := v]> d)
          | inl e => inl e
          end
      end
  end.

Section WithBackend.

Variable backend : Backend.

(** The completion call: ask the oracle, record the call. *)
Definition complete (client : LLM) (prompt_text : pystr) : M pystr :=
  fun tr => (backend tr client prompt_text, tr ++ [(client, prompt_text)]).

(** [LLMChain._call]: render the prompt from the chain's input
    variables, complete it, return the text under the output key. *)
Definition LLMChain_call (c : LLMChain) (inputs : values) : M values :=
  let* selected := lift (select (input_variables (prompt c)) inputs) in
  let* prompt_text := lift (format (prompt c) selected) in
  let* response := complete (llm c) prompt_text in
  ret ({[ output_key c := Str response ]} : values).

(** [chain(inputs, return_only_outputs=...)]: the outputs (merged over
    the inputs unless only the outputs are asked for) and the chain
    with its memory updated. *)
Definition Chain_call (c : LLMChain) (inputs : values) (return_only_outputs : bool)
  : M (values * LLMChain) :=
  let* inputs' := lift (prep_inputs (input_variables (prompt c)) (memory c) inputs) in
  let* outputs := LLMChain_call c inputs' in
  let* c' := match memory c with
             | None => ret c
             | Some m =>
                 let* m' := lift (save_context m inputs' outputs) in
                 ret (with_memory c m')
             end in
  ret (if return_only_outputs then outputs else outputs ∪ inputs', c').

(** [chain.run], called with keyword arguments, at least one (with none
    at all [run] raises at once, which the model leaves out): the value
    of the single output key, which is the text the chain has just put
    there. *)
Definition LLMChain_run (c : LLMChain) (kwargs : values) : M (pystr * LLMChain) :=
  let* r := Chain_call c kwargs false in
  match fst r !! output_key c with
  | Some (Str v) => ret (v, snd r)
  | Some (Int _) => raise Unmodelled
  | None => raise (KeyError (output_key c))
  end.

(** *** SequentialChain *)

Record SequentialChain : Type := {
  chains : list LLMChain;
  seq_input_variables : list pystr;
  output_variables : list pystr
}.

Definition known_in (known : list pystr) (k : pystr) : bool :=
  existsb (str_eqb k) known.

(** The check made when a [SequentialChain] is built: every step finds
    its inputs among the variables known so far and adds a new one. *)
Fixpoint validate_steps (steps : list LLMChain) (known : list pystr)
  : exn + list pystr :=
  match steps with
  | [] => inr known
  | c :: rest =>
      let needed :=
        match memory c with
        | Some m => filter (fun k => k <> memory_key m) (input_variables (prompt c))
        | None => input_variables (prompt c)
        end in
      if negb (forallb (known_in known) needed)
      then inl (ValueError
                  (MissingRequiredInputKeys
                     (List.filter (fun k => negb (known_in known k)) needed)))
      else if known_in known (output_key c)
      then inl (ValueError (KeysAlreadyExist [output_key c]))
      else validate_steps rest (known ++ [output_key c])
  end.

Definition new_SequentialChain (steps : list LLMChain) (inputs outputs : list pystr)
  : exn + SequentialChain :=
  match validate_steps steps inputs with
  | inl e => inl e
  | inr known =>
      if forallb (known_in known) outputs
      then inr {| chains := steps; seq_input_variables := inputs; output_variables := outputs |}
      else inl (ValueError
                  (OutputVariablesNotFound
                     (List.filter (fun k => negb (known_in known k)) outputs)))
  end.

(** The loop of [SequentialChain._call]: each step is called on the
    values known so far and its outputs are added to them. *)
Fixpoint run_steps (steps : list LLMChain) (known_values : values)
  : M (values * list LLMChain) :=
  match steps with
  | [] => ret (known_values, [])
  | c :: rest =>
      let* r := Chain_call c known_values true in
      let* r' := run_steps rest (fst r ∪ known_values) in
      ret (fst r', snd r :: snd r')
  end.

(** [sequential_chain(inputs)]: the output variables merged over the
    inputs, and the chain with the steps as the run left them. *)
Definition SequentialChain_call (sc : SequentialChain) (inputs : values)
  : M (values * SequentialChain) :=
  let* inputs' := lift (prep_inputs (seq_input_variables sc) None inputs) in
  let* r := run_steps (chains sc) inputs' in
  let* outputs := lift (select (output_variables sc) (fst r)) in
  ret (outputs ∪ inputs',
       {| chains := snd r;
          seq_input_variables := seq_input_variables sc;
          output_variables := output_variables sc |}).

End WithBackend.

End LangChain.


(** ** advanced_features.py *)

Module AdvancedFeatures.
Import LangChain.

(** *** 2. Advanced email chain with analysis step *)

Definition analysis_template : pystr :=
  text
    [ EmptyString;
      "    You're an expert email marketing analyst. First, analyze the following email subject to determine:";
      "    1. The primary purpose (promotional, informational, invitation, etc.)";
      "    2. The appropriate tone (formal, conversational, urgent, etc.)";
      "    3. The target audience characteristics";
      "    4. Key points that should be emphasized";
      EmptyString;
      "    SUBJECT: {subject}";
      EmptyString;
      "    Provide your analysis:";
      "    "].

Definition email_template : pystr :=
  text
    [ EmptyString;
      "    You are an AI Email Marketing Expert with years of experience crafting engaging, professional emails.";
      "    ";
      "    SUBJECT: {subject}";
      "    ";
      "    Here's an analysis of the subject that you should use to guide your email creation:";
      "    {analysis}";
      "    ";
      "    Based on this analysis, create a comprehensive email that includes:";
      "    1. An attention-grabbing subject line that builds on the provided subject";
      "    2. A personalized greeting with [Name] placeholder";
      "    3. A concise but compelling body (2-3 paragraphs)";
      "    4. A clear call-to-action";
      "    5. A professional sign-off";
      "    ";
      "    The email should follow this structure:";
      "    ---";
      "    Subject: [Enhanced Subject Line]";
      "    ";
      "    Dear [Name],";
      "    ";
      "    [First paragraph: Introduction and hook related to the subject]";
      "    ";
      "    [Second paragraph: Key details and value proposition]";
      "    ";
      "    [Third paragraph (optional): Additional information or urgency element]";
      "    ";
      "    [Clear call-to-action with specific instructions]";
      "    ";
      "    [Professional sign-off],";
      "    [Company Name]";
      "    ---";
      "    ";
      "    Keep the email concise, engaging, and focused on driving action. Use persuasive language throughout.";
      "    "].

Definition analysis_prompt : PromptTemplate :=
  {| input_variables := [py "subject"]; template := analysis_template |}.

Definition analysis_chain (client : LLM) : LLMChain :=
  {| llm := client; prompt := analysis_prompt;
     output_key := py "analysis"; memory := None |}.

Definition email_prompt : PromptTemplate :=
  {| input_variables := [py "subject"; py "analysis"]; template := email_template |}.

Definition email_chain (client : LLM) : LLMChain :=
  {| llm := client; prompt := email_prompt;
     output_key := py "email"; memory := None |}.

(** [create_advanced_email_chain(llm)]: building the [SequentialChain]
    runs the library's validation of the steps. *)
Definition create_advanced_email_chain (client : LLM) : exn + SequentialChain :=
  new_SequentialChain
    [analysis_chain client; email_chain client]
    [py "subject"]
    [py "analysis"; py "email"].

(** *** 3. Email chain with memory for follow-up emails *)

Definition follow_up_template : pystr :=
  text
    [ EmptyString;
      "    You are an AI Email Marketing Expert with years of experience crafting engaging, professional emails.";
      "    ";
      "    CURRENT SUBJECT: {subject}";
      "    ";
      "    PREVIOUS EMAIL HISTORY:";
      "    {chat_history}";
      "    ";
      "    Based on the current subject and the previous email history, create a follow-up email that:";
      "    1. References the previous communication";
      "    2. Maintains continuity in tone and messaging";
      "    3. Advances the conversation or objective";
      "    4. Includes all standard email components (greeting, body, CTA, sign-off)";
      "    ";
      "    The email should follow this structure:";
      "    ---";
      "    Subject: [Follow-up Subject Line]";
      "    ";
      "    Dear [Name],";
      "    ";
      "    [First paragraph: Reference to previous communication]";
      "    ";
      "    [Second paragraph: New information or next steps]";
      "    ";
      "    [Third paragraph (optional): Additional details or urgency]";
      "    ";
      "    [Clear call-to-action with specific instructions]";
      "    ";
      "    [Professional sign-off],";
      "    [Company Name]";
      "    ---";
      "    ";
      "    Keep the email concise, engaging, and focused on driving action.";
      "    "].

Definition follow_up_prompt : PromptTemplate :=
  {| input_variables := [py "subject"; py "chat_history"];
     template := follow_up_template |}.

Definition create_email_chain_with_memory (client : LLM) : LLMChain :=
  let memory := new_memory (py "chat_history") (py "subject") in
  {| llm := client; prompt := follow_up_prompt;
     output_key := default_output_key; memory := Some memory |}.

(** *** 4. Email template customization

    The literals appended to [template], in the order of the source. *)

Definition base_block : pystr :=
  text
    [ EmptyString;
      "    You are an AI Email Marketing Expert with years of experience crafting engaging, professional emails.";
      "    ";
      "    SUBJECT: {subject}";
      "    REQUESTED TONE: {tone}";
      "    EMAIL LENGTH: {length} paragraphs";
      "    ";
      "    Please create a {tone} email that includes:";
      "    1. An attention-grabbing subject line that builds on the provided subject";
      "    2. A personalized greeting with [Name] placeholder";
      "    3. A body with exactly {length} paragraphs";
      "    4. A clear call-to-action";
      "    5. A professional sign-off";
      "    "].

Definition ps_instruction_block : pystr :=
  text
    [ EmptyString;
      "    6. A brief PS line that adds value or creates urgency";
      "    "].

Definition formal_block : pystr :=
  text
    [ EmptyString;
      "    Use formal language, avoid contractions, and maintain professional distance.";
      "    Address the recipient with proper titles and use industry-specific terminology where appropriate.";
      "    "].

Definition friendly_block : pystr :=
  text
    [ EmptyString;
      "    Use a warm, conversational tone with a personal touch.";
      "    Include light humor where appropriate and focus on building relationship.";
      "    "].

Definition urgent_block : pystr :=
  text
    [ EmptyString;
      "    Create a sense of urgency throughout the email.";
      "    Use time-sensitive language and emphasize limited availability or deadlines.";
      "    "].

Definition structure_block : pystr :=
  text
    [ EmptyString;
      "    The email should follow this structure:";
      "    ---";
      "    Subject: [Enhanced Subject Line]";
      "    ";
      "    Dear [Name],";
      "    ";
      "    [Email body with exactly {length} paragraphs]";
      "    ";
      "    [Clear call-to-action with specific instructions]";
      "    ";
      "    [Professional sign-off],";
      "    [Company Name]";
      "    "].

Definition ps_block : pystr :=
  text
    [ EmptyString;
      "    ";
      "    P.S. [Brief value-add or urgency statement]";
      "    "].

Definition footer_block : pystr :=
  text
    [ EmptyString;
      "    ---";
      "    ";
      "    Keep the email concise, engaging, and focused on driving action. Use persuasive language throughout.";
      "    "].

Definition create_custom_email_template (tone : pystr) (length : Z) (include_ps : bool)
  : PromptTemplate :=
  let template := base_block in
  let template := if include_ps then template ++ ps_instruction_block else template in
  let template :=
    if str_eqb tone (py "formal") then template ++ formal_block
    else if str_eqb tone (py "friendly") then template ++ friendly_block
    else if str_eqb tone (py "urgent") then template ++ urgent_block
    else template in
  let template := template ++ structure_block in
  let template := if include_ps then template ++ ps_block else template in
  let template := template ++ footer_block in
  {| input_variables := [py "subject"; py "tone"; py "length"];
     template := template |}.

(** *** 5. Multi-provider support

    Building a client runs the constructor of its class, which looks the
    key up (in the arguments, then in the environment) and may refuse
    the settings.  [refuses settings] is what the constructor raises for
    these settings, if anything; it stands for the installed client
    libraries and the environment of the process. *)

Section Generate.

Variable refuses : LLM -> option exn.

(** [Class(...)]: the client, unless its constructor raises. *)
Definition new_client (settings : LLM) : exn + LLM :=
  match refuses settings with
  | Some e => inl e
  | None => inr settings
  end.

Definition get_llm_by_provider (provider api_key : pystr) : exn + LLM :=
  if str_eqb provider (py "openai") then
    new_client (OpenAI (7 # 10) 1024 (py "gpt-3.5-turbo-instruct") api_key)
  else if str_eqb provider (py "openai-chat") then
    new_client (ChatOpenAI (7 # 10) (py "gpt-3.5-turbo") api_key)
  else if str_eqb provider (py "anthropic") then
    new_client (ChatAnthropic (7 # 10) 1024 (py "claude-2") api_key)
  else
    (* Default to OpenAI *)
    new_client (OpenAI (7 # 10) 1024 (py "gpt-3.5-turbo-instruct") api_key).

(** *** 6. Settings from the UI *)

Variable backend : Backend.
(** [str.lower], the Unicode case mapping. *)
Variable lower : pystr -> pystr.

Definition generate_email_with_settings
           (subject api_key model_type tone : pystr) (length : Z) (include_ps : bool)
  : M pystr :=
  let* client := lift (get_llm_by_provider model_type api_key) in
  let prompt_template := create_custom_email_template (lower tone) length include_ps in
  let chain :=
    {| llm := client; prompt := prompt_template;
       output_key := default_output_key; memory := None |} in
  let* result :=
    LLMChain_run backend chain
      (<[py "subject" := Str subject]>
         (<[py "tone" := Str (lower tone)]>
            (<[py "length" := Int length]> ∅))) in
  ret (strip (fst result)).

End Generate.

End AdvancedFeatures.

(** ** app.py *)

Module App.
Import LangChain.

(** What the page shows in answer to a click. *)
Inductive UiEvent : Type :=
| st_warning (body : pystr)
| st_error (head : pystr) (e : exn).  (* the f-string: [head] followed by [str(e)] *)

(** The state a Streamlit run works on: the calls made to the backend,
    the slot of [st.cache_resource] behind [load_llm], the string-valued
    entries of [st.session_state], and the messages shown. *)
Record World : Type := {
  calls : Trace;
  llm_cache : option LLM;
  session_state : dict;
  shown : list UiEvent
}.

Definition set_calls (w : World) (tr : Trace) : World :=
  {| calls := tr; llm_cache := llm_cache w;
     session_state := session_state w; shown := shown w |}.

Definition set_llm_cache (w : World) (c : option LLM) : World :=
  {| calls := calls w; llm_cache := c;
     session_state := session_state w; shown := shown w |}.

Definition set_session_state (w : World) (s : dict) : World :=
  {| calls := calls w; llm_cache := llm_cache w;
     session_state := s; shown := shown w |}.

Definition show (w : World) (e : UiEvent) : World :=
  {| calls := calls w; llm_cache := llm_cache w;
     session_state := session_state w; shown := shown w ++ [e] |}.

Definition M (A : Type) : Type := World -> (exn + A) * World.

Definition ret {A} (a : A) : M A := fun w => (inr a, w).
Definition bind {A B} (m : M A) (k : A -> M B) : M B :=
  fun w => match m w with
           | (inr a, w') => k a w'
           | (inl e, w') => (inl e, w')
           end.

Notation "'let+' x := m 'in' k" := (bind m (fun x => k))
  (at level 10, x name, m at level 100, k at level 200).

(** A LangChain computation run inside the page. *)
Definition run_chain {A} (m : LangChain.M A) : M A :=
  fun w => let r := m (calls w) in (fst r, set_calls w (snd r)).

(** [@st.cache_resource def load_llm(_api_key)]: the argument's name
    starts with an underscore, so Streamlit leaves it out of the cache
    key: the client built by the first call is the one every later call
    gets. *)
Definition load_llm (_api_key : pystr) : M LLM :=
  fun w => match llm_cache w with
           | Some client => (inr client, w)
           | None =>
               let client := ChatGroq (7 # 10) 1024 (py "llama3-8b-8192") _api_key in
               (inr client, set_llm_cache w (Some client))
           end.

Definition email_template : pystr :=
  text
    [ EmptyString;
      "You are an AI Email Marketing Expert with years of experience crafting engaging, professional emails. Your task is to generate a complete email based on the subject line provided.";
      EmptyString;
      "SUBJECT: {subject}";
      EmptyString;
      "Please create a comprehensive email that includes:";
      "1. An attention-grabbing subject line that builds on the provided subject";
      "2. A personalized greeting with [Name] placeholder";
      "3. A concise but compelling body (2-3 paragraphs)";
      "4. A clear call-to-action";
      "5. A professional sign-off";
      EmptyString;
      "Adjust the tone and style to match the context of the subject (formal, urgent, friendly, promotional, etc.).";
      EmptyString;
      "The email should follow this structure:";
      "---";
      "Subject: [Enhanced Subject Line]";
      EmptyString;
      "Dear [Name],";
      EmptyString;
      "[First paragraph: Introduction and hook related to the subject]";
      EmptyString;
      "[Second paragraph: Key details and value proposition]";
      EmptyString;
      "[Third paragraph (optional): Additional information or urgency element]";
      EmptyString;
      "[Clear call-to-action with specific instructions]";
      EmptyString;
      "[Professional sign-off],";
      "[Company Name]";
      "---";
      EmptyString;
      "Keep the email concise, engaging, and focused on driving action. Use persuasive language throughout.";
      EmptyString].

(** The sidebar's model selection. *)
Inductive model_choice : Type :=
| llama3_8b_8192
| llama2_70b_4096.

Record model_parameters : Type := {
  type : pystr;
  model : pystr
}.

Definition model_mapping (choice : model_choice) : model_parameters :=
  match choice with
  | llama3_8b_8192 => {| type := py "groq"; model := py "llama3-8b-8192" |}
  | llama2_70b_4096 => {| type := py "groq"; model := py "llama2-70b-4096" |}
  end.

Section Page.

Variable backend : Backend.

Definition generate_email (subject api_key model_type : pystr) : M pystr :=
  let+ client :=
    (if str_eqb model_type (py "openai") then load_llm api_key
     else (* Support for additional models can be added here *)
       load_llm api_key) in
  let prompt := {| input_variables := [py "subject"]; template := email_template |} in
  let chain :=
    {| llm := client; prompt := prompt;
       output_key := default_output_key; memory := None |} in
  let+ result :=
    run_chain (LLMChain_run backend chain {[ py "subject" := Str subject ]}) in
  ret (strip (fst result)).

(** The body of [if st.button("Generate Email", type="primary"):]. *)
Definition generate_button (subject api_key : pystr) (selected_model : model_parameters)
           (w : World) : World :=
  match subject with
  | _ :: _ =>
      match generate_email subject api_key (type selected_model) w with
      | (inr email_content, w') =>
          set_session_state w'
            (<[py "subject" := subject]>
               (<[py "generated_email" := email_content]> (session_state w')))
      | (inl e, w') => show w' (st_error (py "Error generating email: ") e)
      end
  | [] => show w (st_warning (py "Please enter a subject for your email."))
  end.

End Page.

End App.

(** ** app.py: the other controls of the page *)

Module AppControls.
Import LangChain App.

(** The check for an API key at the top of the script.  [getenv] is what
    [os.getenv("GROQ_API_KEY")] returned ([None] when the variable is not
    set), [typed] what the password field holds.  The result is the key
    the rest of the script runs with, or [None] when [st.stop()] ends the
    run. *)
Definition no_api_key_warning : pystr :=
  text
    [ EmptyString;
      "    No API key found. Please set your Groq API key in the .env file or in the field below.";
      "    "].

Definition check_api_key (getenv : option pystr) (typed : pystr) (w : World)
  : option pystr * World :=
  match getenv with
  | Some (c :: k) => (Some (c :: k), w)
  | _ =>
      let w' := show w (st_warning no_api_key_warning) in
      match typed with
      | _ :: _ => (Some typed, w')
      | [] => (None, w')
      end
  end.

(** The sample subjects and their buttons.  [clicked sample] is what
    [st.button(sample, key=sample)] returns in this run.  The session
    state of the model holds the entries the script assigns, "subject"
    and "generated_email"; the entry Streamlit keeps for each keyed
    button under the text of its sample, which no line of the script
    reads, is not represented. *)
Definition sample_subjects : list pystr :=
  [ py "Quarterly Strategy Meeting - June 15th";
    py "Introducing Our Revolutionary New Product Line";
    py "Exclusive Invitation to Our Premium Webinar";
    py "Thank You for Our Conversation Yesterday";
    py "We Value Your Opinion on Your Recent Purchase" ].

(** The [for sample in sample_subjects] loop: the local [subject] and the
    state after it. *)
Fixpoint sample_loop (samples : list pystr) (clicked : pystr -> bool)
         (subject : pystr) (w : World) : pystr * World :=
  match samples with
  | [] => (subject, w)
  | sample :: rest =>
      if clicked sample then
        sample_loop rest clicked sample
          (set_session_state w (<[py "subject" := sample]> (session_state w)))
      else sample_loop rest clicked subject w
  end.

(** The body of [with col1:] down to the loop: [subject] is what the
    text field holds, [show_samples] the checkbox. *)
Definition sample_buttons (show_samples : bool) (clicked : pystr -> bool)
           (subject : pystr) (w : World) : pystr * World :=
  if show_samples then sample_loop sample_subjects clicked subject w
  else (subject, w).

Section Controls.

Variable backend : Backend.

(** The body of [if st.button("Regenerate"):].  The flag is [true] when
    [st.rerun()] is reached; the exception it raises to restart the
    script is not an [Exception], so the handler below it does not catch
    it. *)
Definition regenerate_button (api_key : pystr) (selected_model : model_parameters)
           (w : World) : World * bool :=
  match session_state w !! py "subject" with
  | Some stored =>
      match generate_email backend stored api_key (type selected_model) w with
      | (inr email_content, w') =>
          (set_session_state w'
             (<[py "generated_email" := email_content]> (session_state w')),
           true)
      | (inl e, w') => (show w' (st_error (py "Error regenerating email: ") e), false)
      end
  | None => (w, false)
  end.

(** The second column as far as the state goes: the buttons under the
    generated email exist only once an email is stored. *)
Definition generated_email_column (regenerate_clicked : bool) (api_key : pystr)
           (selected_model : model_parameters) (w : World) : World * bool :=
  match session_state w !! py "generated_email" with
  | Some _ =>
      if regenerate_clicked then regenerate_button api_key selected_model w
      else (w, false)
  | None => (w, false)
  end.

End Controls.

End AppControls.

(** ** Notions used to state the properties *)

Module Props.
Import LangChain.


(** The text a template stands for once every placeholder has been
    replaced by its value. *)
Fixpoint fill (segs : list segment) (kwargs : values) : pystr :=
  match segs with
  | [] => []
  | Lit s :: rest => s ++ fill rest kwargs
  | Field n :: rest => from_option shown_as [] (kwargs !! n) ++ fill rest kwargs
  end.


(** A value the formatter can print: any string, and an [int] within
    the digit limit. *)
Definition printable (v : value) : Prop := format_value v = inr (shown_as v).

(** The keyword arguments hold a printable value for the variable. *)
Definition supplied (kwargs : values) (name : pystr) : Prop :=
  exists v, kwargs !! name = Some v /\ printable v.


(** The template parses to the end, names only declared variables and
    keeps no brace in its literal text. *)
Definition well_formed (p : PromptTemplate) : bool :=
  match parse (template p) with
  | (segs, None) =>
      forallb (known_in (input_variables p)) (field_names segs)
      && forallb (fun l => Nat.eqb (braces l) 0) (literals segs)
  | (_, Some _) => false
  end.

(** The template has a placeholder for [name]. *)
Definition mentions (p : PromptTemplate) (name : pystr) : bool :=
  known_in (field_names (fst (parse (template p)))) name.

Fixpoint is_prefix (a s : pystr) : bool :=
  match a, s with
  | [], _ => true
  | x :: a', y :: s' => N.eqb x y && is_prefix a' s'
  | _ :: _, [] => false
  end.

(** Somewhere in the template, placeholder [name] stands between
    literal text ending in [before] and literal text starting with
    [after]. *)
Fixpoint framed (before name after : pystr) (segs : list segment) : bool :=
  match segs with
  | [] => false
  | Lit x :: rest =>
      match rest with
      | Field m :: Lit y :: _ =>
          (is_prefix (rev before) (rev x) && str_eqb m name && is_prefix after y)
          || framed before name after rest
      | _ => framed before name after rest
      end
  | Field _ :: rest => framed before name after rest
  end.

(** The program's templates: the base template of the page and every
    template the customization function assembles. *)
Definition base_prompt : PromptTemplate :=
  {| input_variables := [py "subject"]; template := App.email_template |}.

Definition registered (p : PromptTemplate) : Prop :=
  p = base_prompt
  \/ exists tone length include_ps,
      p = AdvancedFeatures.create_custom_email_template tone length include_ps.

(** The follow-up chain of [create_email_chain_with_memory] once its
    memory holds the messages [msgs]. *)
Definition follow_up_chain (client : LLM) (msgs : list message) : LLMChain :=
  {| llm := client;
     prompt := AdvancedFeatures.follow_up_prompt;
     output_key := default_output_key;
     memory := Some {| chat_memory := msgs;
                       memory_key := py "chat_history";
                       input_key := py "subject";
                       human_prefix := py "Human";
                       ai_prefix := py "AI" |} |}.

(** The (subject, generated email) pairs as the messages the memory
    holds and as the transcript it renders. *)
Definition pair_messages (pairs : list (pystr * pystr)) : list message :=
  flat_map (fun sr => [HumanMessage (fst sr); AIMessage (snd sr)]) pairs.

Definition transcript (pairs : list (pystr * pystr)) : pystr :=
  join LF (flat_map (fun sr => [py "Human: " ++ fst sr; py "AI: " ++ snd sr]) pairs).

(** [chain.run(subject=s)] for each subject in turn, on the same chain
    object: the results and the chain as the last run left it. *)
Fixpoint generations (backend : Backend) (c : LLMChain) (subjects : list pystr)
  : M (list pystr * LLMChain) :=
  match subjects with
  | [] => ret ([], c)
  | s :: rest =>
      let* r := LLMChain_run backend c {[ py "subject" := Str s ]} in
      let* r' := generations backend (snd r) rest in
      ret (fst r :: fst r', snd r')
  end.

(** All characters are whitespace. *)
Definition all_space (s : pystr) : Prop := forallb isspace s = true.

(** Neither the first nor the last character is whitespace. *)
Definition trimmed (s : pystr) : Prop :=
  match s with
  | [] => True
  | c :: _ => isspace c = false
  end
  /\ match rev s with
     | [] => True
     | c :: _ => isspace c = false
     end.

(** The keyword arguments of the [chain.run] call in
    [generate_email_with_settings]. *)
Definition settings_kwargs (subject tone : pystr) (length : Z) : values :=
  <[py "subject" := Str subject]>
    (<[py "tone" := Str tone]> (<[py "length" := Int length]> ∅)).

(** What a caller of [generate_email_with_settings] sees and what the
    backend saw: the result or the exception, and the calls made. *)
Definition outcome (r : exn + pystr) (client : LLM) (sent : pystr) (tr : Trace)
  : (exn + pystr) * Trace :=
  (match r with
   | inr reply => inr (strip reply)
   | inl e => inl e
   end,
   tr ++ [(client, sent)]).

(** Backends used in the examples. *)

(** Answers every prompt with its length, padded with whitespace. *)
Definition echo_length : Backend :=
  fun _ _ prompt_text =>
    inr (py "  " ++ decimal (Z.of_nat (length prompt_text)) ++ LF).

(** Answers with the number of the call. *)
Definition numbered : Backend :=
  fun tr _ _ => inr (py "reply " ++ decimal (Z.of_nat (length tr))).

(** Always raises. *)
Definition unreachable : Backend :=
  fun _ _ _ => inl (BackendError (py "connection refused")).

(** Raises on the first call, answers afterwards. *)
Definition flaky : Backend :=
  fun tr _ _ =>
    match tr with
    | [] => inl (BackendError (py "rate limit"))
    | _ => inr (py " Subject: Hello ")
    end.

Definition empty_world : App.World :=
  {| App.calls := []; App.llm_cache := None;
     App.session_state := ∅; App.shown := [] |}.

End Props.
Import LangChain Props.

(** ** Further notions *)

Module MoreProps.
Import AdvancedFeatures.

(** [needle in hay], decided. *)
Fixpoint containsb (hay needle : pystr) : bool :=
  is_prefix needle hay
  || match hay with
     | [] => false
     | _ :: hay' => containsb hay' needle
     end.

(** Which of the three recognised tones a tone string is, if any. *)
Inductive tone_class : Type :=
| Formal
| Friendly
| Urgent
| Plain.

Definition classify (tone : pystr) : tone_class :=
  if str_eqb tone (py "formal") then Formal
  else if str_eqb tone (py "friendly") then Friendly
  else if str_eqb tone (py "urgent") then Urgent
  else Plain.

Definition tone_block (c : tone_class) : pystr :=
  match c with
  | Formal => formal_block
  | Friendly => friendly_block
  | Urgent => urgent_block
  | Plain => []
  end.

(** The blocks of a customized template, in their order. *)
Definition assemble (c : tone_class) (include_ps : bool) : pystr :=
  base_block
    ++ (if include_ps then ps_instruction_block else [])
    ++ tone_block c
    ++ structure_block
    ++ (if include_ps then ps_block else [])
    ++ footer_block.



(** The first lines of every customized prompt, up to the value of each
    of the three variables. *)
Definition header_intro : pystr :=
  text
    [ EmptyString;
      "    You are an AI Email Marketing Expert with years of experience crafting engaging, professional emails.";
      "    ";
      "    SUBJECT: " ].

Definition header (subject tone length : pystr) : pystr :=
  header_intro ++ subject
    ++ LF ++ py "    REQUESTED TONE: " ++ tone
    ++ LF ++ py "    EMAIL LENGTH: " ++ length.

(** Client constructors for the examples: a process whose environment
    holds a key for every client, so that no constructor raises; and one
    with no OPENAI_API_KEY, where the two OpenAI clients refuse an empty
    key (the examples build no other client with an empty key). *)
Definition keys_in_environment : LLM -> option exn := fun _ => None.

Definition no_openai_key_in_environment : LLM -> option exn :=
  fun settings =>
    match settings with
    | OpenAI _ _ _ [] => Some (ClientError settings)
    | ChatOpenAI _ _ [] => Some (ClientError settings)
    | _ => None
    end.

(** A backend that answers with whitespace only. *)
Definition blank : Backend :=
  fun _ _ _ => inr (py "  " ++ LF ++ py " ").

(** A page that has generated one email. *)
Definition after_first_email : App.World :=
  {| App.calls := [];
     App.llm_cache := Some (ChatGroq (7 # 10) 1024 (py "llama3-8b-8192") (py "gsk-first"));
     App.session_state :=
       <[py "subject" := py "Webinar invitation"]>
         (<[py "generated_email" := py "Dear [Name], ..."]>
            (<[py "draft" := py "kept"]> ∅));
     App.shown := [] |}.

(** Only the button of one sample subject is pressed. *)
Definition only (sample : pystr) : pystr -> bool := fun s => str_eqb s sample.

End MoreProps.
Import MoreProps.

(** * Properties *)

(** ** Strings *)

Section StringFacts.

Lemma str_eqb_eq (a b : pystr) : str_eqb a b = true <-> a = b.
Proof.
  revert b; induction a as [|x a IH]; intros [|y b]; simpl; split;
    try congruence; try discriminate.
  - intros H. apply andb_true_iff in H as [Hx Hab].
    apply N.eqb_eq in Hx. apply IH in Hab. congruence.
  - intros H. injection H as -> ->. rewrite N.eqb_refl. simpl. now apply IH.
Qed.

Lemma str_eqb_neq (a b : pystr) : a <> b -> str_eqb a b = false.
Proof.
  intros H. destruct (str_eqb a b) eqn:E; [|reflexivity].
  apply str_eqb_eq in E. contradiction.
Qed.

Lemma str_eqb_refl (a : pystr) : str_eqb a a = true.
Proof. now apply str_eqb_eq. Qed.

Lemma contains_middle (pre s suf : pystr) : contains (pre ++ s ++ suf) s.
Proof. now exists pre, suf. Qed.

Lemma contains_app_l (a b s : pystr) : contains b s -> contains (a ++ b) s.
Proof.
  intros (pre & suf & ->). exists (a ++ pre), suf. now rewrite <- app_assoc.
Qed.

Lemma contains_app_r (a b s : pystr) : contains a s -> contains (a ++ b) s.
Proof.
  intros (pre & suf & ->). exists pre, (suf ++ b). now rewrite <- !app_assoc.
Qed.

Lemma contains_head (s suf : pystr) : contains (s ++ suf) s.
Proof. now exists [], suf. Qed.



(** *** [strip] *)

Lemma lstrip_split (s : pystr) :
  exists ws, s = ws ++ lstrip s /\ all_space ws.
Proof.
  induction s as [|c s (ws & Hs & Hws)]; simpl.
  - now exists [].
  - destruct (isspace c) eqn:Hc.
    + exists (c :: ws). split; [simpl; congruence|].
      unfold all_space in *. simpl. now rewrite Hc.
    + now exists [].
Qed.

Lemma lstrip_head (s : pystr) :
  match lstrip s with
  | [] => True
  | c :: _ => isspace c = false
  end.
Proof.
  induction s as [|c s IH]; simpl; [exact I|].
  destruct (isspace c) eqn:Hc; [exact IH | exact Hc].
Qed.

Lemma all_space_rev (s : pystr) : all_space s -> all_space (rev s).
Proof.
  unfold all_space. rewrite !forallb_forall. intros H c Hc.
  apply H. now apply in_rev.
Qed.

Lemma rstrip_split (s : pystr) :
  exists ws, s = rstrip s ++ ws /\ all_space ws.
Proof.
  unfold rstrip. destruct (lstrip_split (rev s)) as (ws & Hs & Hws).
  exists (rev ws). split; [|now apply all_space_rev].
  rewrite <- rev_app_distr, <- Hs. now rewrite rev_involutive.
Qed.

(** Dropping trailing whitespace keeps a non-space first character. *)
Lemma lstrip_rev_head (c : N) (s : pystr) :
  isspace c = false ->
  exists s', rev (lstrip (rev (c :: s))) = c :: s'.
Proof.
  intros Hc.
  destruct (lstrip_split (rev (c :: s))) as (ws & Hs & Hws).
  assert (Hr : c :: s = rev (lstrip (rev (c :: s))) ++ rev ws).
  { rewrite <- rev_app_distr, <- Hs. now rewrite rev_involutive. }
  destruct (rev (lstrip (rev (c :: s)))) as [|d t] eqn:E.
  - simpl in Hr. exfalso.
    apply all_space_rev in Hws. rewrite <- Hr in Hws.
    unfold all_space in Hws. simpl in Hws. rewrite Hc in Hws. discriminate.
  - simpl in Hr. injection Hr as -> _. now exists t.
Qed.

Lemma strip_trimmed (s : pystr) : trimmed (strip s).
Proof.
  unfold trimmed, strip, rstrip. split.
  - pose proof (lstrip_head s) as Hh.
    destruct (lstrip s) as [|c t] eqn:E; [exact I|].
    destruct (lstrip_rev_head c t Hh) as (s' & ->). exact Hh.
  - rewrite rev_involutive. apply lstrip_head.
Qed.

Lemma strip_split (s : pystr) :
  exists before after,
    s = before ++ strip s ++ after /\ all_space before /\ all_space after.
Proof.
  destruct (lstrip_split s) as (ws1 & H1 & Hw1).
  destruct (rstrip_split (lstrip s)) as (ws2 & H2 & Hw2).
  exists ws1, ws2. unfold strip. now rewrite <- H2.
Qed.

End StringFacts.

(** ** Rendering a template *)

Section FormatFacts.

Lemma known_in_In (known : list pystr) (k : pystr) :
  known_in known k = true <-> In k known.
Proof.
  unfold known_in. rewrite existsb_exists. split.
  - intros (x & Hx & Hk). apply str_eqb_eq in Hk. now subst.
  - intros H. exists k. split; [exact H | apply str_eqb_refl].
Qed.

Lemma printable_Str (s : pystr) : printable (Str s).
Proof. reflexivity. Qed.

Lemma str_of_int_decimal (n : Z) (shown : pystr) :
  str_of_int n = inr shown -> shown = decimal n.
Proof.
  unfold str_of_int. destruct (int_max_str_digits <? digit_count n)%nat; congruence.
Qed.

Lemma printable_Int (n : Z) (shown : pystr) :
  str_of_int n = inr shown -> printable (Int n).
Proof.
  intros H. unfold printable. cbn [format_value shown_as].
  now rewrite H, (str_of_int_decimal n shown H).
Qed.

Lemma supplied_is_Some (kwargs : values) (k : pystr) :
  supplied kwargs k -> is_Some (kwargs !! k).
Proof. intros (v & Hv & _). eauto. Qed.

Lemma substitute_fill (segs : list segment) (kwargs : values) :
  (forall n, In n (field_names segs) -> supplied kwargs n) ->
  substitute segs None kwargs = inr (fill segs kwargs).
Proof.
  induction segs as [|[l|n] segs IH]; intros H; simpl.
  - reflexivity.
  - rewrite IH; [reflexivity | exact H].
  - destruct (H n) as (v & Hv & Hp); [now left|].
    rewrite Hv. unfold printable in Hp. rewrite Hp. simpl.
    rewrite IH; [reflexivity|].
    intros m Hm. apply H. now right.
Qed.

Lemma substitute_ext (segs : list segment) (stop : option exn) (d1 d2 : values) :
  (forall n, In n (field_names segs) -> d1 !! n = d2 !! n) ->
  substitute segs stop d1 = substitute segs stop d2.
Proof.
  induction segs as [|[l|n] segs IH]; intros H; simpl.
  - reflexivity.
  - now rewrite IH.
  - rewrite (H n) by now left.
    rewrite IH; [reflexivity|]. intros m Hm. apply H. now right.
Qed.

(** The first placeholder whose value cannot be printed stops the
    rendering with the error of that value. *)
Lemma substitute_unprintable (segs : list segment) (stop : option exn)
      (kwargs : values) (n : pystr) (v : value) (e : exn) :
  forall pre post,
    field_names segs = pre ++ n :: post ->
    (forall m, In m pre -> supplied kwargs m) ->
    kwargs !! n = Some v ->
    format_value v = inl e ->
    substitute segs stop kwargs = inl e.
Proof.
  induction segs as [|[l|m] segs IH]; intros pre post Hf Hpre Hn He; simpl in *.
  - destruct pre; discriminate.
  - now rewrite (IH pre post Hf Hpre Hn He).
  - destruct pre as [|m' pre].
    + injection Hf as -> _. now rewrite Hn, He.
    + injection Hf as -> Hf.
      destruct (Hpre m') as (w & -> & Hp); [now left|].
      unfold printable in Hp. rewrite Hp.
      rewrite (IH pre post Hf); [reflexivity| |exact Hn|exact He].
      intros k Hk. apply Hpre. now right.
Qed.

Lemma fill_ext (segs : list segment) (d1 d2 : values) :
  (forall n, In n (field_names segs) -> d1 !! n = d2 !! n) ->
  fill segs d1 = fill segs d2.
Proof.
  induction segs as [|[l|n] segs IH]; intros H; simpl.
  - reflexivity.
  - f_equal. apply IH, H.
  - rewrite (H n) by now left. f_equal. apply IH.
    intros m Hm. apply H. now right.
Qed.

Lemma fill_contains (segs : list segment) (kwargs : values) (n : pystr) (v : value) :
  In n (field_names segs) -> kwargs !! n = Some v ->
  contains (fill segs kwargs) (shown_as v).
Proof.
  induction segs as [|[l|m] segs IH]; simpl; intros Hin Hv.
  - contradiction.
  - apply contains_app_l. now apply IH.
  - destruct Hin as [->|Hin].
    + rewrite Hv. simpl. apply contains_head.
    + apply contains_app_l. now apply IH.
Qed.


Lemma is_prefix_app (a s : pystr) :
  is_prefix a s = true -> exists rest, s = a ++ rest.
Proof.
  revert s; induction a as [|x a IH]; intros s H.
  - now exists s.
  - destruct s as [|y s]; simpl in H; [discriminate|].
    apply andb_true_iff in H as [Hx H]. apply N.eqb_eq in Hx. subst y.
    destruct (IH s H) as (rest & ->). now exists rest.
Qed.

Lemma is_suffix_app (a s : pystr) :
  is_prefix (rev a) (rev s) = true -> exists front, s = front ++ a.
Proof.
  intros H. destruct (is_prefix_app _ _ H) as (rest & Hr).
  exists (rev rest).
  rewrite <- (rev_involutive s), Hr, rev_app_distr. now rewrite rev_involutive.
Qed.

Lemma framed_contains (before name after : pystr) (segs : list segment)
      (kwargs : values) (v : value) :
  framed before name after segs = true -> kwargs !! name = Some v ->
  contains (fill segs kwargs) (before ++ shown_as v ++ after).
Proof.
  intros H Hv. induction segs as [|[x|m] segs IH].
  - discriminate.
  - assert (Hrest : framed before name after segs = true ->
                    contains (fill (Lit x :: segs) kwargs)
                      (before ++ shown_as v ++ after)).
    { intros Hf. simpl. apply contains_app_l. now apply IH. }
    simpl in H. destruct segs as [|[y|m] segs']; try (now apply Hrest).
    destruct segs' as [|[y|m'] segs'']; try (now apply Hrest).
    apply orb_true_iff in H as [H|H]; [|now apply Hrest].
    apply andb_true_iff in H as [H Hy]. apply andb_true_iff in H as [Hx Hm].
    apply str_eqb_eq in Hm. subst m.
    destruct (is_suffix_app _ _ Hx) as (front & ->).
    destruct (is_prefix_app _ _ Hy) as (rest & ->).
    simpl. rewrite Hv. simpl.
    exists front, (rest ++ fill segs'' kwargs).
    now rewrite <- !app_assoc.
  - simpl in H. simpl. apply contains_app_l. now apply IH.
Qed.

Lemma select_ok (keys : list pystr) (inputs : values) :
  (forall k, In k keys -> is_Some (inputs !! k)) ->
  exists d, select keys inputs = inr d
            /\ forall k, In k keys -> d !! k = inputs !! k.
Proof.
  induction keys as [|k keys IH]; intros H; simpl.
  - exists ∅. split; [reflexivity | intros k []].
  - destruct (H k) as [v Hv]; [now left|]. rewrite Hv.
    destruct IH as (d & -> & Hd); [intros j Hj; apply H; now right|].
    exists (<[k := v]> d). split; [reflexivity|].
    intros j [->|Hj].
    + now rewrite lookup_insert_eq.
    + destruct (decide (k = j)) as [->|Hne].
      * now rewrite lookup_insert_eq.
      * rewrite lookup_insert_ne by exact Hne. now apply Hd.
Qed.

Lemma has_keys (keys : list pystr) (inputs : values) :
  (forall k, In k keys -> is_Some (inputs !! k)) ->
  forallb (has_key inputs) keys = true.
Proof.
  intros H. apply forallb_forall. intros k Hk. unfold has_key.
  destruct (H k Hk) as [v ->]. reflexivity.
Qed.

Lemma well_formed_fields (p : PromptTemplate) :
  well_formed p = true ->
  snd (parse (template p)) = None
  /\ forall n, In n (field_names (fst (parse (template p)))) ->
               In n (input_variables p).
Proof.
  unfold well_formed. destruct (parse (template p)) as [segs [e|]]; [discriminate|].
  intros H. apply andb_true_iff in H as [Hnames _].
  rewrite forallb_forall in Hnames. split; [reflexivity|].
  intros n Hn. apply known_in_In. now apply Hnames.
Qed.

(** What [LLMChain] passes to the formatter, the values of the declared
    variables, renders as the keyword arguments themselves do. *)
Lemma select_format (p : PromptTemplate) (kwargs : values) :
  well_formed p = true ->
  (forall k, In k (input_variables p) -> is_Some (kwargs !! k)) ->
  exists sel,
    select (input_variables p) kwargs = inr sel
    /\ format p sel = format p kwargs.
Proof.
  intros Hwf Hk. destruct (well_formed_fields p Hwf) as [_ Hin].
  destruct (select_ok _ _ Hk) as (sel & Hsel & Hlook).
  exists sel. split; [exact Hsel|]. unfold format.
  destruct (parse (template p)) as [segs stop]. cbn [fst] in Hin.
  apply substitute_ext. intros n Hn. apply Hlook. now apply Hin.
Qed.

(** A well-formed template renders whenever its declared variables have
    printable values, and renders to its filled text. *)
Lemma format_fill (p : PromptTemplate) (kwargs : values) :
  well_formed p = true ->
  (forall k, In k (input_variables p) -> supplied kwargs k) ->
  format p kwargs = inr (fill (fst (parse (template p))) kwargs).
Proof.
  intros Hwf Hk. destruct (well_formed_fields p Hwf) as [Hstop Hin].
  unfold format. destruct (parse (template p)) as [segs stop].
  cbn [fst snd] in *. subst stop.
  apply substitute_fill. intros n Hn. apply Hk. now apply Hin.
Qed.

Lemma format_well_formed (p : PromptTemplate) (kwargs : values) :
  well_formed p = true ->
  (forall k, In k (input_variables p) -> supplied kwargs k) ->
  exists sel,
    select (input_variables p) kwargs = inr sel
    /\ format p sel = inr (fill (fst (parse (template p))) kwargs)
    /\ format p kwargs = inr (fill (fst (parse (template p))) kwargs).
Proof.
  intros Hwf Hk.
  destruct (select_format p kwargs Hwf) as (sel & Hsel & Heq);
    [intros k Hin; apply supplied_is_Some; now apply Hk|].
  exists sel. split; [exact Hsel|].
  rewrite Heq, (format_fill p kwargs Hwf Hk). split; reflexivity.
Qed.

Lemma mentions_contains (p : PromptTemplate) (kwargs : values) (n : pystr) (v : value) :
  mentions p n = true -> kwargs !! n = Some v ->
  contains (fill (fst (parse (template p))) kwargs) (shown_as v).
Proof.
  intros Hm Hv. apply fill_contains with (n := n); [|exact Hv].
  now apply known_in_In.
Qed.

End FormatFacts.

(** ** Running a chain *)

Section ChainFacts.

Variable backend : Backend.

(** A chain without memory renders its prompt from the inputs; if that
    fails nothing is sent, otherwise exactly one call is made, and the
    run fails only if that call does. *)
Lemma Chain_call_format (c : LLMChain) (inputs : values) (only : bool) (tr : Trace) :
  memory c = None ->
  well_formed (prompt c) = true ->
  (forall k, In k (input_variables (prompt c)) -> is_Some (inputs !! k)) ->
  Chain_call backend c inputs only tr
  = match format (prompt c) inputs with
    | inl e => (inl e, tr)
    | inr sent =>
        (match backend tr (llm c) sent with
         | inr r =>
             inr (if only then {[ output_key c := Str r ]}
                  else {[ output_key c := Str r ]} ∪ inputs, c)
         | inl e => inl e
         end,
         tr ++ [(llm c, sent)])
    end.
Proof.
  intros Hmem Hwf Hk.
  destruct (select_format _ _ Hwf Hk) as (sel & Hsel & Hfmt).
  unfold Chain_call, LLMChain_call, prep_inputs, bind, lift, complete, ret.
  rewrite Hmem, (has_keys _ _ Hk), Hsel, Hfmt.
  destruct (format (prompt c) inputs) as [e|sent]; [reflexivity|].
  destruct (backend tr (llm c) sent); reflexivity.
Qed.

Lemma LLMChain_run_format (c : LLMChain) (kwargs : values) (tr : Trace) :
  memory c = None ->
  well_formed (prompt c) = true ->
  (forall k, In k (input_variables (prompt c)) -> is_Some (kwargs !! k)) ->
  LLMChain_run backend c kwargs tr
  = match format (prompt c) kwargs with
    | inl e => (inl e, tr)
    | inr sent =>
        (match backend tr (llm c) sent with
         | inr r => inr (r, c)
         | inl e => inl e
         end,
         tr ++ [(llm c, sent)])
    end.
Proof.
  intros Hmem Hwf Hk. unfold LLMChain_run, bind.
  rewrite (Chain_call_format c kwargs false tr Hmem Hwf Hk).
  destruct (format (prompt c) kwargs) as [e|sent]; [reflexivity|].
  destruct (backend tr (llm c) sent) as [e|r]; [reflexivity|].
  cbn [fst snd]. rewrite lookup_union_l' by (rewrite lookup_singleton_eq; eauto).
  now rewrite lookup_singleton_eq.
Qed.

Lemma Chain_call_plain (c : LLMChain) (inputs : values) (only : bool) (tr : Trace) :
  memory c = None ->
  well_formed (prompt c) = true ->
  (forall k, In k (input_variables (prompt c)) -> supplied inputs k) ->
  let sent := fill (fst (parse (template (prompt c)))) inputs in
  Chain_call backend c inputs only tr
  = (match backend tr (llm c) sent with
     | inr r =>
         inr (if only then {[ output_key c := Str r ]}
              else {[ output_key c := Str r ]} ∪ inputs, c)
     | inl e => inl e
     end,
     tr ++ [(llm c, sent)]).
Proof.
  intros Hmem Hwf Hk sent.
  rewrite (Chain_call_format c inputs only tr Hmem Hwf)
    by (intros k Hin; apply supplied_is_Some; now apply Hk).
  now rewrite (format_fill _ _ Hwf Hk).
Qed.

Lemma LLMChain_run_plain (c : LLMChain) (kwargs : values) (tr : Trace) :
  memory c = None ->
  well_formed (prompt c) = true ->
  (forall k, In k (input_variables (prompt c)) -> supplied kwargs k) ->
  let sent := fill (fst (parse (template (prompt c)))) kwargs in
  LLMChain_run backend c kwargs tr
  = (match backend tr (llm c) sent with
     | inr r => inr (r, c)
     | inl e => inl e
     end,
     tr ++ [(llm c, sent)]).
Proof.
  intros Hmem Hwf Hk sent.
  rewrite (LLMChain_run_format c kwargs tr Hmem Hwf)
    by (intros k Hin; apply supplied_is_Some; now apply Hk).
  now rewrite (format_fill _ _ Hwf Hk).
Qed.

End ChainFacts.

(** ** The templates of the program *)

Section TemplateFacts.
Import AdvancedFeatures.

(** Every assembled template is one of eight closed strings: split on
    the three tone tests and on the postscript flag, then compute. *)
Ltac by_cases_on_options tone include_ps :=
  unfold create_custom_email_template;
  destruct (str_eqb tone (py "formal"));
  [|destruct (str_eqb tone (py "friendly"));
    [|destruct (str_eqb tone (py "urgent"))]];
  destruct include_ps; vm_compute; reflexivity.

Lemma custom_well_formed (tone : pystr) (length : Z) (include_ps : bool) :
  well_formed (create_custom_email_template tone length include_ps) = true.
Proof. by_cases_on_options tone include_ps. Qed.

Lemma custom_mentions_subject (tone : pystr) (length : Z) (include_ps : bool) :
  mentions (create_custom_email_template tone length include_ps) (py "subject") = true.
Proof. by_cases_on_options tone include_ps. Qed.

Lemma custom_frames_length (tone : pystr) (length : Z) (include_ps : bool) :
  framed (py "EMAIL LENGTH: ") (py "length") (py " paragraphs")
    (fst (parse (template (create_custom_email_template tone length include_ps))))
  = true.
Proof. by_cases_on_options tone include_ps. Qed.

Lemma custom_input_variables (tone : pystr) (length : Z) (include_ps : bool) :
  input_variables (create_custom_email_template tone length include_ps)
  = [py "subject"; py "tone"; py "length"].
Proof. reflexivity. Qed.

Lemma base_well_formed : well_formed base_prompt = true.
Proof. vm_compute. reflexivity. Qed.

Lemma base_mentions_subject : mentions base_prompt (py "subject") = true.
Proof. vm_compute. reflexivity. Qed.

Lemma registered_well_formed (p : PromptTemplate) :
  registered p -> well_formed p = true.
Proof.
  intros [->|(tone & length & include_ps & ->)].
  - apply base_well_formed.
  - apply custom_well_formed.
Qed.






(** C3. Template construction is deterministic: two calls of
    [create_custom_email_template] with identical arguments assemble
    identical template bodies (and identical templates). *)
Theorem template_construction_deterministic
        (tone tone' : pystr) (length length' : Z) (include_ps include_ps' : bool) :
  tone = tone' -> length = length' -> include_ps = include_ps' ->
  template (create_custom_email_template tone length include_ps)
  = template (create_custom_email_template tone' length' include_ps')
  /\ create_custom_email_template tone length include_ps
     = create_custom_email_template tone' length' include_ps'.
Proof. intros -> -> ->. split; reflexivity. Qed.

Lemma template_construction_deterministic_witness :
  py "urgent" = py "urgent" /\ 4 = 4 /\ true = true
  /\ template (create_custom_email_template (py "urgent") 4 true)
     = template (create_custom_email_template (py "urgent") 4 true)
  /\ create_custom_email_template (py "urgent") 4 true
     = create_custom_email_template (py "urgent") 4 true.
Proof.
  split; [reflexivity|]. split; [reflexivity|]. split; [reflexivity|].
  apply (template_construction_deterministic
           (py "urgent") (py "urgent") 4 4 true true);
    reflexivity.
Defined.

(** C10. A tone other than "formal", "friendly" and "urgent" (the
    default "professional" among them) contributes no fragment: the
    body is the base block, the postscript instruction when asked for,
    the structure block, the postscript line when asked for, and the
    footer. *)
Theorem other_tone_adds_no_fragment (tone : pystr) (length : Z) (include_ps : bool) :
  tone <> py "formal" -> tone <> py "friendly" -> tone <> py "urgent" ->
  template (create_custom_email_template tone length include_ps)
  = base_block
      ++ (if include_ps then ps_instruction_block else [])
      ++ structure_block
      ++ (if include_ps then ps_block else [])
      ++ footer_block.
Proof.
  intros H1 H2 H3. unfold create_custom_email_template.
  rewrite (str_eqb_neq _ _ H1), (str_eqb_neq _ _ H2), (str_eqb_neq _ _ H3).
  destruct include_ps; simpl; rewrite <- ?app_assoc; reflexivity.
Qed.

Lemma other_tone_adds_no_fragment_witness :
  py "professional" <> py "formal"
  /\ py "professional" <> py "friendly"
  /\ py "professional" <> py "urgent"
  /\ template (create_custom_email_template (py "professional") 3 true)
     = base_block ++ ps_instruction_block ++ structure_block
         ++ ps_block ++ footer_block.
Proof.
  assert (H1 : py "professional" <> py "formal") by (vm_compute; discriminate).
  assert (H2 : py "professional" <> py "friendly") by (vm_compute; discriminate).
  assert (H3 : py "professional" <> py "urgent") by (vm_compute; discriminate).
  split; [exact H1|]. split; [exact H2|]. split; [exact H3|].
  exact (other_tone_adds_no_fragment (py "professional") 3 true H1 H2 H3).
Defined.

(** Whatever the provider string, the constructor of one of three
    clients is called, with the key. *)
Lemma get_llm_by_provider_kinds (refuses : LLM -> option exn) (provider api_key : pystr) :
  get_llm_by_provider refuses provider api_key
  = new_client refuses (OpenAI (7 # 10) 1024 (py "gpt-3.5-turbo-instruct") api_key)
  \/ get_llm_by_provider refuses provider api_key
     = new_client refuses (ChatOpenAI (7 # 10) (py "gpt-3.5-turbo") api_key)
  \/ get_llm_by_provider refuses provider api_key
     = new_client refuses (ChatAnthropic (7 # 10) 1024 (py "claude-2") api_key).
Proof.
  unfold get_llm_by_provider.
  destruct (str_eqb provider (py "openai")); [now left|].
  destruct (str_eqb provider (py "openai-chat")); [right; now left|].
  destruct (str_eqb provider (py "anthropic")); [right; now right|].
  now left.
Qed.

(** C1, as the code has it.  For a provider that is none of "openai",
    "openai-chat" and "anthropic", [get_llm_by_provider] does what it
    does for "openai": it calls the constructor of the default client,
    the OpenAI completion client, with the key.  It returns that client
    when the constructor accepts the settings, and what it raises
    otherwise is what the constructor raises: there is no
    unknown-provider error. *)
Theorem unknown_provider_falls_back
        (refuses : LLM -> option exn) (provider api_key : pystr) :
  provider <> py "openai" ->
  provider <> py "openai-chat" ->
  provider <> py "anthropic" ->
  let default := OpenAI (7 # 10) 1024 (py "gpt-3.5-turbo-instruct") api_key in
  get_llm_by_provider refuses provider api_key
  = get_llm_by_provider refuses (py "openai") api_key
  /\ (refuses default = None ->
      get_llm_by_provider refuses provider api_key = inr default)
  /\ (forall e,
         get_llm_by_provider refuses provider api_key = inl e ->
         refuses default = Some e).
Proof.
  intros H1 H2 H3 default. unfold get_llm_by_provider.
  rewrite (str_eqb_neq _ _ H1), (str_eqb_neq _ _ H2), (str_eqb_neq _ _ H3).
  rewrite str_eqb_refl. fold default. unfold new_client.
  split; [reflexivity|]. split.
  - intros ->. reflexivity.
  - intros e. destruct (refuses default); congruence.
Qed.

Lemma unknown_provider_falls_back_witness :
  let default := OpenAI (7 # 10) 1024 (py "gpt-3.5-turbo-instruct") (py "sk-test") in
  py "mistral" <> py "openai"
  /\ py "mistral" <> py "openai-chat"
  /\ py "mistral" <> py "anthropic"
  /\ no_openai_key_in_environment default = None
  /\ get_llm_by_provider no_openai_key_in_environment (py "mistral") (py "sk-test")
     = inr default
  /\ get_llm_by_provider no_openai_key_in_environment (py "mistral") (py "sk-test")
     = get_llm_by_provider no_openai_key_in_environment (py "openai") (py "sk-test").
Proof.
  intros default.
  assert (H1 : py "mistral" <> py "openai") by (vm_compute; discriminate).
  assert (H2 : py "mistral" <> py "openai-chat") by (vm_compute; discriminate).
  assert (H3 : py "mistral" <> py "anthropic") by (vm_compute; discriminate).
  assert (Hok : no_openai_key_in_environment default = None) by reflexivity.
  destruct (unknown_provider_falls_back no_openai_key_in_environment
              (py "mistral") (py "sk-test") H1 H2 H3)
    as (Hsame & Hclient & _).
  split; [exact H1|]. split; [exact H2|]. split; [exact H3|]. split; [exact Hok|].
  split; [exact (Hclient Hok) | exact Hsame].
Defined.

(** C1, as stated, fails: a client does not come back for every key.
    With no OPENAI_API_KEY in the environment, the constructor of the
    default client refuses the empty key, and so does the call for an
    unknown provider. *)
Lemma empty_key_is_refused :
  get_llm_by_provider no_openai_key_in_environment (py "mistral") []
  = inl (ClientError (OpenAI (7 # 10) 1024 (py "gpt-3.5-turbo-instruct") []))
  /\ ~ (exists client,
           get_llm_by_provider no_openai_key_in_environment (py "mistral") []
           = inr client).
Proof.
  split; [reflexivity|]. intros (client & H). discriminate H.
Qed.

End TemplateFacts.

(** ** Single-step generation *)

Section SingleStep.
Import AdvancedFeatures.

Variable refuses : LLM -> option exn.
Variable backend : Backend.
Variable lower : pystr -> pystr.

Lemma settings_lookup_subject (subject tone : pystr) (length : Z) :
  settings_kwargs subject tone length !! py "subject" = Some (Str subject).
Proof. unfold settings_kwargs. apply lookup_insert_eq. Qed.

Lemma settings_lookup_tone (subject tone : pystr) (length : Z) :
  settings_kwargs subject tone length !! py "tone" = Some (Str tone).
Proof.
  unfold settings_kwargs.
  rewrite lookup_insert_ne by (vm_compute; discriminate).
  apply lookup_insert_eq.
Qed.

Lemma settings_lookup_length (subject tone : pystr) (length : Z) :
  settings_kwargs subject tone length !! py "length" = Some (Int length).
Proof.
  unfold settings_kwargs.
  rewrite !lookup_insert_ne by (vm_compute; discriminate).
  apply lookup_insert_eq.
Qed.

Lemma settings_all_present (subject tone : pystr) (length : Z) (k : pystr) :
  In k [py "subject"; py "tone"; py "length"] ->
  is_Some (settings_kwargs subject tone length !! k).
Proof.
  intros [<-|[<-|[<-|[]]]].
  - rewrite settings_lookup_subject. eauto.
  - rewrite settings_lookup_tone. eauto.
  - rewrite settings_lookup_length. eauto.
Qed.

Lemma settings_all_supplied (subject tone : pystr) (length : Z) (shown k : pystr) :
  str_of_int length = inr shown ->
  In k [py "subject"; py "tone"; py "length"] ->
  supplied (settings_kwargs subject tone length) k.
Proof.
  intros Hshown [<-|[<-|[<-|[]]]].
  - exists (Str subject). split; [apply settings_lookup_subject | apply printable_Str].
  - exists (Str tone). split; [apply settings_lookup_tone | apply printable_Str].
  - exists (Int length). split; [apply settings_lookup_length|].
    exact (printable_Int length shown Hshown).
Qed.

Lemma custom_fields (tone : pystr) (length : Z) (include_ps : bool) :
  snd (parse (template (create_custom_email_template tone length include_ps))) = None
  /\ field_names (fst (parse (template
                                (create_custom_email_template tone length include_ps))))
     = [py "subject"; py "tone"; py "length"; py "tone"; py "length"; py "length"].
Proof.
  unfold create_custom_email_template;
    destruct (str_eqb tone (py "formal"));
    [|destruct (str_eqb tone (py "friendly"));
      [|destruct (str_eqb tone (py "urgent"))]];
    destruct include_ps; vm_compute; split; reflexivity.
Qed.

(** Rendering the customized template with the three keyword arguments
    fails only on a paragraph count that cannot be printed. *)
Lemma settings_format (subject tone : pystr) (length : Z) (include_ps : bool)
      (tone' : pystr) :
  let p := create_custom_email_template tone' length include_ps in
  let kwargs := settings_kwargs subject tone length in
  format p kwargs
  = match str_of_int length with
    | inl e => inl e
    | inr _ => inr (fill (fst (parse (template p))) kwargs)
    end.
Proof.
  intros p kwargs. destruct (str_of_int length) as [e|shown] eqn:Hshown.
  - destruct (custom_fields tone' length include_ps) as [_ Hf]. fold p in Hf.
    unfold format. destruct (parse (template p)) as [segs stop]. cbn [fst] in Hf.
    apply (substitute_unprintable segs stop kwargs (py "length") (Int length) e
             [py "subject"; py "tone"] _ Hf).
    + intros m [<-|[<-|[]]].
      * exists (Str subject). split; [apply settings_lookup_subject|apply printable_Str].
      * exists (Str tone). split; [apply settings_lookup_tone|apply printable_Str].
    + apply settings_lookup_length.
    + exact Hshown.
  - apply format_fill; [apply custom_well_formed|].
    intros k Hk. exact (settings_all_supplied subject tone length shown k Hshown Hk).
Qed.

(** Running a memoryless chain and stripping what it returns. *)
Lemma run_and_strip (c : LLMChain) (kwargs : values) (tr : Trace) :
  memory c = None ->
  well_formed (prompt c) = true ->
  (forall k, In k (input_variables (prompt c)) -> is_Some (kwargs !! k)) ->
  (let* result := LLMChain_run backend c kwargs in ret (strip (fst result))) tr
  = match format (prompt c) kwargs with
    | inl e => (inl e, tr)
    | inr sent => outcome (backend tr (llm c) sent) (llm c) sent tr
    end.
Proof.
  intros Hmem Hwf Hk. unfold bind, outcome.
  rewrite (LLMChain_run_format backend c kwargs tr Hmem Hwf Hk).
  destruct (format (prompt c) kwargs) as [e|sent]; [reflexivity|].
  destruct (backend tr (llm c) sent); reflexivity.
Qed.

(** [generate_email_with_settings], step by step: the constructor of the
    client may raise; then the rendering of the customized template may
    raise, on the paragraph count; otherwise one call is made with the
    rendered prompt and the reply is stripped. *)
Lemma generate_email_with_settings_run
      (subject api_key model_type tone : pystr) (length : Z) (include_ps : bool)
      (tr : Trace) :
  let p := create_custom_email_template (lower tone) length include_ps in
  let kwargs := settings_kwargs subject (lower tone) length in
  let sent := fill (fst (parse (template p))) kwargs in
  generate_email_with_settings refuses backend lower
    subject api_key model_type tone length include_ps tr
  = match get_llm_by_provider refuses model_type api_key with
    | inl e => (inl e, tr)
    | inr client =>
        match str_of_int length with
        | inl e => (inl e, tr)
        | inr _ => outcome (backend tr client sent) client sent tr
        end
    end.
Proof.
  intros p kwargs sent.
  pose proof (custom_well_formed (lower tone) length include_ps) as Hwf.
  assert (Hk : forall k, In k (input_variables p) -> is_Some (kwargs !! k))
    by apply settings_all_present.
  unfold generate_email_with_settings. unfold bind at 1. unfold lift.
  destruct (get_llm_by_provider refuses model_type api_key) as [e|client];
    [reflexivity|].
  pose proof (run_and_strip
                {| llm := client; prompt := p;
                   output_key := default_output_key; memory := None |}
                kwargs tr eq_refl Hwf Hk) as Hrun.
  cbn [prompt llm] in Hrun.
  pose proof (settings_format subject (lower tone) length include_ps (lower tone))
    as Hfmt.
  cbv zeta in Hfmt. fold p in Hfmt. fold kwargs in Hfmt. fold sent in Hfmt.
  rewrite Hfmt in Hrun.
  destruct (str_of_int length); exact Hrun.
Qed.

End SingleStep.

(** ** The page *)

Section PageFacts.
Import App.

Variable backend : Backend.

(** [load_llm] never fails and leaves the client it returns in the
    cache; nothing else changes. *)
Lemma load_llm_run (api_key : pystr) (w : World) :
  exists client,
    load_llm api_key w = (inr client, set_llm_cache w (Some client))
    /\ (llm_cache w = None ->
        client = ChatGroq (7 # 10) 1024 (py "llama3-8b-8192") api_key)
    /\ (forall c, llm_cache w = Some c -> client = c).
Proof.
  unfold load_llm. destruct w as [tr [c|] st sh]; unfold set_llm_cache; simpl.
  - exists c. split; [reflexivity|]. split; [discriminate|]. now intros ? [=].
  - eexists. split; [reflexivity|]. split; [reflexivity|]. discriminate.
Qed.

Lemma base_subject_present (subject k : pystr) :
  In k (input_variables base_prompt) ->
  supplied {[ py "subject" := Str subject ]} k.
Proof.
  intros [<-|[]]. exists (Str subject).
  split; [apply lookup_singleton_eq | apply printable_Str].
Qed.

(** The text the page sends for a subject. *)
Lemma base_prompt_renders (subject : pystr) :
  let sent := fill (fst (parse (template base_prompt))) {[ py "subject" := Str subject ]} in
  format base_prompt {[ py "subject" := Str subject ]} = inr sent
  /\ contains sent subject.
Proof.
  intros sent. split.
  - now destruct (format_well_formed base_prompt _ base_well_formed
                    (base_subject_present subject)) as (sel & _ & _ & Hfmt).
  - apply (mentions_contains base_prompt _ (py "subject") (Str subject)).
    + apply base_mentions_subject.
    + apply lookup_singleton_eq.
Qed.

(** [generate_email]: the client comes from [load_llm], one call is
    made with the rendered base template, the reply is stripped. *)
Lemma generate_email_run (subject api_key model_type : pystr) (w : World)
      (client : LLM) :
  load_llm api_key w = (inr client, set_llm_cache w (Some client)) ->
  let sent := fill (fst (parse (template base_prompt))) {[ py "subject" := Str subject ]} in
  generate_email backend subject api_key model_type w
  = (match backend (calls w) client sent with
     | inr reply => inr (strip reply)
     | inl e => inl e
     end,
     set_calls (set_llm_cache w (Some client)) (calls w ++ [(client, sent)])).
Proof.
  intros Hload sent. unfold generate_email, bind.
  assert (Hl : (if str_eqb model_type (py "openai")
                then load_llm api_key else load_llm api_key) w
               = (inr client, set_llm_cache w (Some client))).
  { destruct (str_eqb model_type (py "openai")); exact Hload. }
  rewrite Hl. cbv beta iota. unfold bind, run_chain.
  change {| input_variables := [py "subject"]; template := email_template |}
    with base_prompt.
  rewrite (LLMChain_run_plain backend
             {| llm := client; prompt := base_prompt;
                output_key := default_output_key; memory := None |}
             {[ py "subject" := Str subject ]}
             (calls (set_llm_cache w (Some client)))
             eq_refl base_well_formed (base_subject_present subject)).
  change (calls (set_llm_cache w (Some client))) with (calls w).
  change (fill _ _) with sent.
  cbn [fst snd llm].
  destruct (backend (calls w) client sent); reflexivity.
Qed.

(** C9. The [model_type] argument of [generate_email] has no effect:
    for every subject, key, state of the page and any two values of
    [model_type], the two runs return the same result and leave the
    same state, backend calls included. *)
Theorem model_type_is_ignored (subject api_key m1 m2 : pystr) (w : World) :
  generate_email backend subject api_key m1 w
  = generate_email backend subject api_key m2 w.
Proof.
  unfold generate_email.
  destruct (str_eqb m1 (py "openai")), (str_eqb m2 (py "openai")); reflexivity.
Qed.

(** An empty subject: a warning is shown and nothing else happens. *)
Lemma generate_button_empty (api_key : pystr) (selected_model : model_parameters)
      (w : World) :
  generate_button backend [] api_key selected_model w
  = show w (st_warning (py "Please enter a subject for your email.")).
Proof. reflexivity. Qed.

(** A click with a subject, in terms of the call it makes. *)
Lemma generate_button_run (subject api_key : pystr) (selected_model : model_parameters)
      (w : World) (client : LLM) :
  subject <> [] ->
  load_llm api_key w = (inr client, set_llm_cache w (Some client)) ->
  let sent := fill (fst (parse (template base_prompt))) {[ py "subject" := Str subject ]} in
  let w' := set_calls (set_llm_cache w (Some client)) (calls w ++ [(client, sent)]) in
  generate_button backend subject api_key selected_model w
  = match backend (calls w) client sent with
    | inr reply =>
        set_session_state w'
          (<[py "subject" := subject]>
             (<[py "generated_email" := strip reply]> (session_state w)))
    | inl e => show w' (st_error (py "Error generating email: ") e)
    end.
Proof.
  intros Hs Hload sent w'. unfold generate_button.
  destruct subject as [|c subject]; [contradiction|].
  rewrite (generate_email_run (c :: subject) api_key (type selected_model) w client Hload).
  fold sent. fold w'.
  destruct (backend (calls w) client sent); reflexivity.
Qed.

End PageFacts.

(** ** Failed generation *)

Section FailedGeneration.
Import App.

Variable backend : Backend.

(** C6. A failed generation leaves what the page displays untouched.
    With an empty subject the click only shows the warning: no call
    reaches the backend, and the cache and the session state stay as they
    were.  With a subject whose backend call raises, the session state
    (the stored email with it) is unchanged, the error is shown, and the
    call is the only trace left; a second click sends the same prompt
    again, and stores the stripped reply when the backend then answers. *)
Theorem failed_generation_is_atomic
        (api_key : pystr) (selected_model : model_parameters) (w : World) :
  (let w0 := generate_button backend [] api_key selected_model w in
   calls w0 = calls w
   /\ llm_cache w0 = llm_cache w
   /\ session_state w0 = session_state w
   /\ shown w0 = shown w ++ [st_warning (py "Please enter a subject for your email.")])
  /\ (forall (subject : pystr) (client : LLM) (sent : pystr) (e : exn),
        subject <> [] ->
        load_llm api_key w = (inr client, set_llm_cache w (Some client)) ->
        format base_prompt {[ py "subject" := Str subject ]} = inr sent ->
        backend (calls w) client sent = inl e ->
        let w1 := generate_button backend subject api_key selected_model w in
        session_state w1 = session_state w
        /\ shown w1 = shown w ++ [st_error (py "Error generating email: ") e]
        /\ calls w1 = calls w ++ [(client, sent)]
        /\ forall reply,
            backend (calls w1) client sent = inr reply ->
            session_state (generate_button backend subject api_key selected_model w1)
            = <[py "subject" := subject]>
                (<[py "generated_email" := strip reply]> (session_state w))).
Proof.
  split.
  - rewrite generate_button_empty. repeat split; reflexivity.
  - intros subject client sent e Hs Hload Hfmt Hfail w1.
    pose proof (generate_button_run backend subject api_key selected_model w client
                  Hs Hload) as Hrun.
    destruct (base_prompt_renders subject) as [Hsent _].
    set (sent0 := fill (fst (parse (template base_prompt)))
                    {[ py "subject" := Str subject ]}) in *.
    assert (Heq : sent0 = sent) by congruence.
    clearbody sent0. subst sent0.
    cbv zeta in Hrun. rewrite Hfail in Hrun.
    unfold w1. rewrite Hrun.
    split; [reflexivity|]. split; [reflexivity|]. split; [reflexivity|].
    intros reply Hreply.
    pose proof (generate_button_run backend subject api_key selected_model
                  (show (set_calls (set_llm_cache w (Some client))
                           (calls w ++ [(client, sent)]))
                     (st_error (py "Error generating email: ") e))
                  client Hs eq_refl) as Hretry.
    destruct (base_prompt_renders subject) as [Hsent' _].
    set (sent0 := fill (fst (parse (template base_prompt)))
                    {[ py "subject" := Str subject ]}) in *.
    assert (Heq : sent0 = sent) by congruence.
    clearbody sent0. subst sent0.
    cbv zeta in Hretry. rewrite Hretry, Hreply. reflexivity.
Qed.

End FailedGeneration.

Lemma failed_generation_is_atomic_witness :
  let subject := py "Quarterly Strategy Meeting - June 15th" in
  let api_key := py "gsk-test" in
  let selected_model := App.model_mapping App.llama3_8b_8192 in
  let client := ChatGroq (7 # 10) 1024 (py "llama3-8b-8192") (py "gsk-first") in
  let sent :=
    fill (fst (parse (template base_prompt))) {[ py "subject" := Str subject ]} in
  let w1 := App.generate_button flaky subject api_key selected_model after_first_email in
  subject <> []
  /\ App.load_llm api_key after_first_email
     = (inr client, App.set_llm_cache after_first_email (Some client))
  /\ format base_prompt {[ py "subject" := Str subject ]} = inr sent
  /\ flaky (App.calls after_first_email) client sent
     = inl (BackendError (py "rate limit"))
  /\ App.session_state after_first_email !! py "generated_email"
     = Some (py "Dear [Name], ...")
  /\ App.session_state w1 = App.session_state after_first_email
  /\ App.session_state w1 !! py "generated_email" = Some (py "Dear [Name], ...")
  /\ App.shown w1
     = [App.st_error (py "Error generating email: ") (BackendError (py "rate limit"))]
  /\ App.session_state (App.generate_button flaky subject api_key selected_model w1)
     = <[py "subject" := subject]>
         (<[py "generated_email" := py "Subject: Hello"]>
            (App.session_state after_first_email)).
Proof.
  intros subject api_key selected_model client sent w1.
  assert (Hs : subject <> []) by discriminate.
  assert (Hload : App.load_llm api_key after_first_email
                  = (inr client, App.set_llm_cache after_first_email (Some client)))
    by reflexivity.
  assert (Hfmt : format base_prompt {[ py "subject" := Str subject ]} = inr sent)
    by (vm_compute; reflexivity).
  assert (Hfail : flaky (App.calls after_first_email) client sent
                  = inl (BackendError (py "rate limit"))) by reflexivity.
  assert (Hstored : App.session_state after_first_email !! py "generated_email"
                    = Some (py "Dear [Name], ..."))
    by (vm_compute; reflexivity).
  destruct (failed_generation_is_atomic flaky api_key selected_model after_first_email)
    as [_ H].
  destruct (H subject client sent _ Hs Hload Hfmt Hfail) as (H1 & H2 & H3 & H4).
  split; [exact Hs|]. split; [exact Hload|]. split; [exact Hfmt|].
  split; [exact Hfail|]. split; [exact Hstored|]. split; [exact H1|].
  split; [fold w1 in H1; rewrite H1; exact Hstored|]. split; [exact H2|].
  apply (H4 (py " Subject: Hello ")).
  vm_compute. reflexivity.
Defined.

(** ** Single-step mode and the paragraph count *)

Section SingleStepClaims.
Import AdvancedFeatures.

Variable refuses : LLM -> option exn.
Variable backend : Backend.
Variable lower : pystr -> pystr.

(** C8. In single-step mode, [generate_email_with_settings] and
    [generate_email] each render their template (customized or base)
    with the supplied variables and send at most one prompt, which
    contains the subject literally; what they return is the backend's
    reply stripped: the reply is whitespace, then the result, then
    whitespace, and the result neither starts nor ends with whitespace.
    [generate_email_with_settings] sends its prompt whenever the client is
    built and the paragraph count can be printed; [generate_email], which
    the page calls with a key that is not empty, always does.  This holds
    for every subject, the non-empty ones in particular. *)
Theorem single_step_generation
        (subject api_key model_type tone : pystr) (length : Z) (include_ps : bool)
        (tr : Trace) (w : App.World) :
  let run :=
    generate_email_with_settings refuses backend lower
      subject api_key model_type tone length include_ps tr in
  (exists made,
      snd run = tr ++ made
      /\ (List.length made <= 1)%nat
      /\ forall client sent, In (client, sent) made -> contains sent subject)
  /\ (forall result,
         fst run = inr result ->
         exists client sent reply,
           snd run = tr ++ [(client, sent)]
           /\ backend tr client sent = inr reply
           /\ result = strip reply)
  /\ (forall client shown,
         get_llm_by_provider refuses model_type api_key = inr client ->
         str_of_int length = inr shown ->
         exists sent,
           format (create_custom_email_template (lower tone) length include_ps)
             (settings_kwargs subject (lower tone) length) = inr sent
           /\ contains sent subject
           /\ run = (match backend tr client sent with
                     | inr reply => inr (strip reply)
                     | inl e => inl e
                     end,
                     tr ++ [(client, sent)]))
  /\ (api_key <> [] ->
      exists client sent,
         App.load_llm api_key w = (inr client, App.set_llm_cache w (Some client))
         /\ format base_prompt {[ py "subject" := Str subject ]} = inr sent
         /\ contains sent subject
         /\ App.generate_email backend subject api_key model_type w
            = (match backend (App.calls w) client sent with
               | inr reply => inr (strip reply)
               | inl e => inl e
               end,
               App.set_calls (App.set_llm_cache w (Some client))
                 (App.calls w ++ [(client, sent)])))
  /\ (forall reply,
         trimmed (strip reply)
         /\ exists before after,
             reply = before ++ strip reply ++ after
             /\ all_space before /\ all_space after).
Proof.
  intros run.
  pose proof (generate_email_with_settings_run refuses backend lower
                subject api_key model_type tone length include_ps tr) as Hrun.
  cbv zeta in Hrun. fold run in Hrun.
  pose proof (settings_format subject (lower tone) length include_ps (lower tone))
    as Hfmt.
  cbv zeta in Hfmt.
  set (p := create_custom_email_template (lower tone) length include_ps) in *.
  set (kwargs := settings_kwargs subject (lower tone) length) in *.
  set (sent := fill (fst (parse (template p))) kwargs) in *.
  assert (Hc : contains sent subject).
  { apply (mentions_contains p kwargs (py "subject") (Str subject)).
    - apply custom_mentions_subject.
    - apply settings_lookup_subject. }
  split; [|split; [|split; [|split]]].
  - destruct (get_llm_by_provider refuses model_type api_key) as [e|client].
    { exists []. rewrite Hrun, app_nil_r. split; [reflexivity|].
      split; [simpl; lia | intros ? ? []]. }
    destruct (str_of_int length) as [e|shown].
    { exists []. rewrite Hrun, app_nil_r. split; [reflexivity|].
      split; [simpl; lia | intros ? ? []]. }
    exists [(client, sent)]. rewrite Hrun. split; [reflexivity|].
    split; [simpl; lia|]. intros c s [[= <- <-]|[]]. exact Hc.
  - intros result Hres. rewrite Hrun in Hres |- *.
    destruct (get_llm_by_provider refuses model_type api_key) as [e|client];
      [discriminate|].
    destruct (str_of_int length) as [e|shown]; [discriminate|].
    unfold outcome in Hres |- *. cbn [fst snd] in Hres |- *.
    destruct (backend tr client sent) as [e|reply] eqn:Hb; [discriminate|].
    exists client, sent, reply. split; [reflexivity|]. split; [exact Hb|].
    congruence.
  - intros client shown Hclient Hshown. rewrite Hclient, Hshown in Hrun.
    rewrite Hshown in Hfmt. exists sent.
    split; [exact Hfmt|]. split; [exact Hc | exact Hrun].
  - intros _. destruct (load_llm_run api_key w) as (client & Hload & _).
    destruct (base_prompt_renders subject) as [Hbase Hcb].
    exists client. eexists. split; [exact Hload|]. split; [exact Hbase|].
    split; [exact Hcb|].
    apply (generate_email_run backend subject api_key model_type w client Hload).
  - intros reply. split; [apply strip_trimmed | apply strip_split].
Qed.

(** C4, as the code has it.  [generate_email_with_settings] has no check
    of the paragraph count: with [length = 0] or [length > 5], once the
    client is built and the count can be printed, the template is
    rendered with the decimal text of [length] itself (nothing is
    clamped: the prompt reads "EMAIL LENGTH: <length> paragraphs") and
    the backend is called with that prompt; what comes back is its reply,
    stripped, or its exception. *)
Theorem length_is_not_validated
        (subject api_key model_type tone : pystr) (length : Z) (include_ps : bool)
        (tr : Trace) (client : LLM) (shown : pystr) :
  length = 0 \/ 5 < length ->
  get_llm_by_provider refuses model_type api_key = inr client ->
  str_of_int length = inr shown ->
  exists sent,
    shown = decimal length
    /\ format (create_custom_email_template (lower tone) length include_ps)
         (settings_kwargs subject (lower tone) length) = inr sent
    /\ contains sent (py "EMAIL LENGTH: " ++ shown ++ py " paragraphs")
    /\ generate_email_with_settings refuses backend lower
         subject api_key model_type tone length include_ps tr
       = (match backend tr client sent with
          | inr reply => inr (strip reply)
          | inl e => inl e
          end,
          tr ++ [(client, sent)]).
Proof.
  intros _ Hclient Hshown.
  pose proof (generate_email_with_settings_run refuses backend lower
                subject api_key model_type tone length include_ps tr) as Hrun.
  pose proof (settings_format subject (lower tone) length include_ps (lower tone))
    as Hfmt.
  cbv zeta in Hrun, Hfmt. rewrite Hclient, Hshown in Hrun. rewrite Hshown in Hfmt.
  pose proof (str_of_int_decimal length shown Hshown) as Hdec.
  eexists. split; [exact Hdec|]. split; [exact Hfmt|]. split; [|exact Hrun].
  rewrite Hdec.
  apply (framed_contains _ (py "length") _ _ _ (Int length)).
  - apply custom_frames_length.
  - apply settings_lookup_length.
Qed.

End SingleStepClaims.

Lemma single_step_generation_witness :
  let client := OpenAI (7 # 10) 1024 (py "gpt-3.5-turbo-instruct") (py "sk-test") in
  let subject := py "Quarterly Strategy Meeting - June 15th" in
  AdvancedFeatures.get_llm_by_provider no_openai_key_in_environment
    (py "default") (py "sk-test") = inr client
  /\ str_of_int 3 = inr (py "3")
  /\ py "sk-test" <> []
  /\ (exists sent,
         contains sent subject
         /\ AdvancedFeatures.generate_email_with_settings
              no_openai_key_in_environment echo_length ascii_lower
              subject (py "sk-test") (py "default") (py "Professional") 3 false []
            = (inr (py "924"), [(client, sent)]))
  /\ (exists page_client sent,
         contains sent subject
         /\ App.calls (snd (App.generate_email echo_length subject (py "sk-test")
                              (py "default") after_first_email))
            = [(page_client, sent)]).
Proof.
  intros client subject.
  assert (Hclient : AdvancedFeatures.get_llm_by_provider no_openai_key_in_environment
                      (py "default") (py "sk-test") = inr client) by reflexivity.
  assert (Hshown : str_of_int 3 = inr (py "3")) by (vm_compute; reflexivity).
  assert (Hkey : py "sk-test" <> []) by discriminate.
  split; [exact Hclient|]. split; [exact Hshown|]. split; [exact Hkey|].
  destruct (single_step_generation no_openai_key_in_environment echo_length ascii_lower
              subject (py "sk-test") (py "default") (py "Professional") 3 false []
              after_first_email)
    as (_ & _ & H & Hpage & _).
  split; [|destruct (Hpage Hkey) as (page_client & sent & _ & _ & Hc & Hrun);
           exists page_client, sent; split; [exact Hc|]; rewrite Hrun; reflexivity].
  destruct (H client (py "3") Hclient Hshown) as (sent & Hfmt & Hc & Hrun).
  exists sent. split; [exact Hc|]. rewrite Hrun.
  assert (Hsent : sent = fill (fst (parse (template
                          (AdvancedFeatures.create_custom_email_template
                             (ascii_lower (py "Professional")) 3 false))))
                       (settings_kwargs subject (ascii_lower (py "Professional")) 3)).
  { pose proof (settings_format subject (ascii_lower (py "Professional")) 3 false
                  (ascii_lower (py "Professional"))) as Hf.
    cbv zeta in Hf. rewrite Hshown in Hf. congruence. }
  f_equal. rewrite Hsent. vm_compute. reflexivity.
Defined.

Lemma length_is_not_validated_witness :
  let client := OpenAI (7 # 10) 1024 (py "gpt-3.5-turbo-instruct") (py "sk-test") in
  (0 = 0 \/ 5 < 0)
  /\ AdvancedFeatures.get_llm_by_provider no_openai_key_in_environment
       (py "openai") (py "sk-test") = inr client
  /\ str_of_int 0 = inr (py "0")
  /\ exists sent,
      contains sent (py "EMAIL LENGTH: 0 paragraphs")
      /\ snd (AdvancedFeatures.generate_email_with_settings
                no_openai_key_in_environment echo_length ascii_lower
                (py "Quarterly Strategy Meeting - June 15th") (py "sk-test")
                (py "openai") (py "Professional") 0 false [])
         = [(client, sent)].
Proof.
  intros client.
  assert (Hbound : 0 = 0 \/ 5 < 0) by now left.
  assert (Hclient : AdvancedFeatures.get_llm_by_provider no_openai_key_in_environment
                      (py "openai") (py "sk-test") = inr client) by reflexivity.
  assert (Hshown : str_of_int 0 = inr (py "0")) by (vm_compute; reflexivity).
  split; [exact Hbound|]. split; [exact Hclient|]. split; [exact Hshown|].
  destruct (length_is_not_validated no_openai_key_in_environment echo_length ascii_lower
              (py "Quarterly Strategy Meeting - June 15th") (py "sk-test")
              (py "openai") (py "Professional") 0 false [] client (py "0")
              Hbound Hclient Hshown)
    as (sent & _ & _ & Hc & Hrun).
  exists sent. split; [exact Hc|]. rewrite Hrun. reflexivity.
Defined.

(** C4, as stated, fails: with a paragraph count of 0, and with one of
    6, the call is not rejected.  The backend is called once, with a
    prompt asking for that many paragraphs, and its reply is returned. *)
Lemma out_of_bounds_length_is_accepted :
  let run (length : Z) :=
    AdvancedFeatures.generate_email_with_settings
      no_openai_key_in_environment echo_length ascii_lower
      (py "Quarterly Strategy Meeting - June 15th") (py "sk-test") (py "openai")
      (py "Professional") length false [] in
  fst (run 0) = inr (py "924")
  /\ (exists sent, snd (run 0) = [(OpenAI (7 # 10) 1024 (py "gpt-3.5-turbo-instruct")
                                    (py "sk-test"), sent)]
                   /\ contains sent (py "EMAIL LENGTH: 0 paragraphs"))
  /\ fst (run 6) = inr (py "924")
  /\ (exists sent, snd (run 6) = [(OpenAI (7 # 10) 1024 (py "gpt-3.5-turbo-instruct")
                                    (py "sk-test"), sent)]
                   /\ contains sent (py "EMAIL LENGTH: 6 paragraphs"))
  /\ ~ (exists e, run 0 = (inl e, []))
  /\ ~ (exists e, run 6 = (inl e, [])).
Proof.
  intros run.
  set (client := OpenAI (7 # 10) 1024 (py "gpt-3.5-turbo-instruct") (py "sk-test")).
  assert (H : forall length shown,
             str_of_int length = inr shown ->
             exists sent,
               contains sent (py "EMAIL LENGTH: " ++ decimal length ++ py " paragraphs")
               /\ run length = outcome (echo_length [] client sent) client sent []).
  { intros length shown Hshown.
    pose proof (generate_email_with_settings_run
                  no_openai_key_in_environment echo_length ascii_lower
                  (py "Quarterly Strategy Meeting - June 15th") (py "sk-test")
                  (py "openai") (py "Professional") length false []) as Hrun.
    cbv zeta in Hrun. rewrite Hshown in Hrun.
    eexists. split; [|exact Hrun].
    apply (framed_contains _ (py "length") _ _ _ (Int length)).
    - apply custom_frames_length.
    - apply settings_lookup_length. }
  assert (H0 : str_of_int 0 = inr (py "0")) by (vm_compute; reflexivity).
  assert (H6 : str_of_int 6 = inr (py "6")) by (vm_compute; reflexivity).
  split; [vm_compute; reflexivity|].
  split.
  { destruct (H 0 _ H0) as (sent & Hc & Hrun). exists sent. split; [|exact Hc].
    rewrite Hrun. reflexivity. }
  split; [vm_compute; reflexivity|].
  split.
  { destruct (H 6 _ H6) as (sent & Hc & Hrun). exists sent. split; [|exact Hc].
    rewrite Hrun. reflexivity. }
  split.
  - intros (e & He). destruct (H 0 _ H0) as (sent & _ & Hrun).
    rewrite Hrun in He. discriminate He.
  - intros (e & He). destruct (H 6 _ H6) as (sent & _ & Hrun).
    rewrite Hrun in He. discriminate He.
Qed.

(** ** Memory mode *)

Section MemoryFacts.
Import AdvancedFeatures.
Variable backend : Backend.

Lemma follow_up_well_formed : well_formed follow_up_prompt = true.
Proof. vm_compute. reflexivity. Qed.

Lemma transcript_buffer (pairs : list (pystr * pystr)) :
  get_buffer_string (pair_messages pairs) (py "Human") (py "AI") = transcript pairs.
Proof.
  unfold get_buffer_string, transcript, pair_messages. f_equal.
  induction pairs as [|[s r] pairs IH]; [reflexivity|].
  simpl. now rewrite IH.
Qed.

Lemma follow_up_run (client : LLM) (msgs : list message) (subject : pystr) (tr : Trace) :
  let history := get_buffer_string msgs (py "Human") (py "AI") in
  let kwargs : values :=
    <[py "chat_history" := Str history]> {[ py "subject" := Str subject ]} in
  let sent := fill (fst (parse (template follow_up_prompt))) kwargs in
  format follow_up_prompt kwargs = inr sent
  /\ LLMChain_run backend (follow_up_chain client msgs) {[ py "subject" := Str subject ]} tr
     = (match backend tr client sent with
        | inr reply =>
            inr (reply,
                 follow_up_chain client
                   (msgs ++ [HumanMessage subject; AIMessage reply]))
        | inl e => inl e
        end,
        tr ++ [(client, sent)]).
Proof.
  intros history kwargs sent.
  assert (Hk : forall k, In k (input_variables follow_up_prompt) -> supplied kwargs k).
  { intros k [<-|[<-|[]]]; unfold kwargs.
    - exists (Str subject). split; [|apply printable_Str].
      rewrite lookup_insert_ne by (vm_compute; discriminate).
      apply lookup_singleton_eq.
    - exists (Str history). split; [|apply printable_Str].
      apply lookup_insert_eq. }
  assert (Hs : forall k, In k (input_variables follow_up_prompt) -> is_Some (kwargs !! k))
    by (intros k Hin; apply supplied_is_Some; now apply Hk).
  destruct (format_well_formed _ _ follow_up_well_formed Hk) as (sel & Hsel & Hfmt & Hfmt').
  split; [exact Hfmt'|].
  unfold LLMChain_run, Chain_call, LLMChain_call, prep_inputs, bind, lift, complete, ret.
  cbn [memory follow_up_chain prompt llm output_key].
  unfold load_memory_variables. cbn [memory_key chat_memory human_prefix ai_prefix].
  fold history.
  rewrite <- insert_union_singleton_l. fold kwargs.
  rewrite (has_keys _ _ Hs), Hsel, Hfmt. fold sent.
  destruct (backend tr client sent) as [e|reply]; [reflexivity|].
  unfold save_context. cbn [input_key].
  assert (Hsub : kwargs !! py "subject" = Some (Str subject)).
  { unfold kwargs. rewrite lookup_insert_ne by (vm_compute; discriminate).
    apply lookup_singleton_eq. }
  rewrite Hsub, map_to_list_singleton.
  cbn [fst snd chat_memory memory_key human_prefix ai_prefix].
  rewrite lookup_union_l' by (rewrite lookup_singleton_eq; eauto).
  rewrite lookup_singleton_eq. reflexivity.
Qed.

Lemma generations_memory (client : LLM) (subjects : list pystr) :
  forall (msgs : list message) (tr : Trace) (results : list pystr)
         (cN : LLMChain) (trN : Trace),
    generations backend (follow_up_chain client msgs) subjects tr
    = (inr (results, cN), trN) ->
    length results = length subjects
    /\ length trN = (length tr + length subjects)%nat
    /\ cN = follow_up_chain client (msgs ++ pair_messages (zip subjects results)).
Proof.
  induction subjects as [|s subjects IH]; intros msgs tr results cN trN H.
  - injection H as <- <- <-. rewrite app_nil_r. repeat split; simpl; lia.
  - cbn [generations] in H. unfold bind at 1 in H.
    destruct (follow_up_run client msgs s tr) as [_ Hrun]. cbv zeta in Hrun.
    rewrite Hrun in H. clear Hrun.
    destruct (backend tr client _) as [e|reply]; [discriminate|].
    unfold bind at 1 in H. cbn [fst snd] in H.
    destruct (generations backend _ subjects _) as [[e|[rs c']] tr'] eqn:Hg;
      [discriminate|].
    unfold ret in H. cbn [fst snd] in H. injection H as <- <- <-.
    destruct (IH _ _ _ _ _ Hg) as (Hlen & Htr & Hc).
    split; [simpl; lia|]. split.
    + rewrite Htr, length_app. simpl. lia.
    + rewrite Hc, <- app_assoc. reflexivity.
Qed.

Lemma generations_succeed (client : LLM) (subjects : list pystr) :
  (forall tr c p, exists reply, backend tr c p = inr reply) ->
  forall (msgs : list message) (tr : Trace),
  exists results cN trN,
    generations backend (follow_up_chain client msgs) subjects tr
    = (inr (results, cN), trN).
Proof.
  intros Hb. induction subjects as [|s subjects IH]; intros msgs tr.
  - now exists [], (follow_up_chain client msgs), tr.
  - cbn [generations]. unfold bind at 1.
    destruct (follow_up_run client msgs s tr) as [_ Hrun]. cbv zeta in Hrun.
    rewrite Hrun. clear Hrun.
    destruct (Hb tr client (fill (fst (parse (template follow_up_prompt)))
                              (<[py "chat_history" := Str (get_buffer_string msgs (py "Human") (py "AI"))]>
                                 {[ py "subject" := Str s ]}))) as (reply & ->).
    unfold bind at 1. cbn [fst snd].
    destruct (IH (msgs ++ [HumanMessage s; AIMessage reply])
                 (tr ++ [(client, fill (fst (parse (template follow_up_prompt)))
                              (<[py "chat_history" := Str (get_buffer_string msgs (py "Human") (py "AI"))]>
                                 {[ py "subject" := Str s ]}))]))
      as (rs & c' & tr' & ->).
    unfold ret. cbn [fst snd]. eauto.
Qed.


(** C7. Memory mode.  After N successful generations through the chain
    of [create_email_chain_with_memory], run one after the other on the
    same chain object, the memory holds the N (subject, generated email)
    pairs in the order of the runs, one call was made per generation, and
    the next prompt is the follow-up template rendered with the new
    subject and, for [{chat_history}], the transcript of those N pairs in
    that order.  When that next call succeeds its pair is appended to the
    memory; when it fails the memory is as before. *)
Theorem memory_transcript
        (client : LLM) (subjects results : list pystr) (cN : LLMChain)
        (tr trN : Trace) (next : pystr) :
  generations backend (create_email_chain_with_memory client) subjects tr
  = (inr (results, cN), trN) ->
  let pairs := zip subjects results in
  length results = length subjects
  /\ length trN = (length tr + length subjects)%nat
  /\ cN = follow_up_chain client (pair_messages pairs)
  /\ exists sent,
      format follow_up_prompt
        (<[py "chat_history" := Str (transcript pairs)]> {[ py "subject" := Str next ]})
      = inr sent
      /\ contains sent (transcript pairs)
      /\ contains sent next
      /\ LLMChain_run backend cN {[ py "subject" := Str next ]} trN
         = (match backend trN client sent with
            | inr reply =>
                inr (reply,
                     follow_up_chain client (pair_messages (pairs ++ [(next, reply)])))
            | inl e => inl e
            end,
            trN ++ [(client, sent)]).
Proof.
  intros H pairs.
  change (create_email_chain_with_memory client) with (follow_up_chain client []) in H.
  destruct (generations_memory client subjects [] tr results cN trN H)
    as (Hlen & Htr & Hc).
  rewrite app_nil_l in Hc. fold pairs in Hc.
  split; [exact Hlen|]. split; [exact Htr|]. split; [exact Hc|].
  destruct (follow_up_run client (pair_messages pairs) next trN) as [Hfmt Hrun].
  cbv zeta in Hfmt, Hrun. rewrite transcript_buffer in Hfmt, Hrun.
  eexists. split; [exact Hfmt|]. split; [|split].
  - apply (mentions_contains follow_up_prompt _ (py "chat_history")
             (Str (transcript pairs))).
    + vm_compute. reflexivity.
    + apply lookup_insert_eq.
  - apply (mentions_contains follow_up_prompt _ (py "subject") (Str next)).
    + vm_compute. reflexivity.
    + rewrite lookup_insert_ne by (vm_compute; discriminate).
      apply lookup_singleton_eq.
  - rewrite Hc, Hrun.
    destruct (backend trN client _); [reflexivity|].
    unfold pair_messages. rewrite flat_map_app. reflexivity.
Qed.

End MemoryFacts.

Lemma memory_transcript_witness :
  let client := ChatGroq (7 # 10) 1024 (py "llama3-8b-8192") (py "gsk-test") in
  let subjects := [py "Webinar invitation"; py "Webinar reminder"] in
  let results := [py "reply 0"; py "reply 1"] in
  let pairs := zip subjects results in
  (exists trN,
      generations numbered (AdvancedFeatures.create_email_chain_with_memory client)
        subjects []
      = (inr (results, follow_up_chain client (pair_messages pairs)), trN)
      /\ length trN = 2%nat)
  /\ transcript pairs
     = join LF [py "Human: Webinar invitation"; py "AI: reply 0";
                py "Human: Webinar reminder"; py "AI: reply 1"]
  /\ exists sent,
      format AdvancedFeatures.follow_up_prompt
        (<[py "chat_history" := Str (transcript pairs)]>
           {[ py "subject" := Str (py "Webinar follow-up") ]})
      = inr sent
      /\ contains sent (transcript pairs).
Proof.
  intros client subjects results pairs.
  assert (Hr : fst (generations numbered
                      (AdvancedFeatures.create_email_chain_with_memory client)
                      subjects [])
               = inr (results, follow_up_chain client (pair_messages pairs)))
    by (vm_compute; reflexivity).
  destruct (generations numbered (AdvancedFeatures.create_email_chain_with_memory client)
              subjects []) as [r trN] eqn:Hg.
  cbn [fst] in Hr. subst r.
  destruct (memory_transcript numbered client subjects results _ [] trN
              (py "Webinar follow-up") Hg)
    as (_ & Htr & _ & sent & Hfmt & Hc & _).
  split; [exists trN; split; [reflexivity | exact Htr]|].
  split; [vm_compute; reflexivity|].
  exists sent. split; [exact Hfmt | exact Hc].
Defined.

(** ** The analysis pipeline *)

Section PipelineFacts.
Import AdvancedFeatures.

Variable backend : Backend.

Lemma analysis_well_formed : well_formed analysis_prompt = true.
Proof. vm_compute. reflexivity. Qed.

Lemma email_well_formed : well_formed email_prompt = true.
Proof. vm_compute. reflexivity. Qed.

(** The validation made at construction accepts the two steps. *)
Lemma create_advanced_email_chain_built (client : LLM) :
  create_advanced_email_chain client
  = inr {| chains := [analysis_chain client; email_chain client];
           seq_input_variables := [py "subject"];
           output_variables := [py "analysis"; py "email"] |}.
Proof. reflexivity. Qed.

Lemma analysis_inputs_present (subject k : pystr) :
  In k (input_variables analysis_prompt) ->
  supplied ({[ py "subject" := Str subject ]} : values) k.
Proof.
  intros [<-|[]]. exists (Str subject). split; [|apply printable_Str].
  apply lookup_singleton_eq.
Qed.

Lemma email_inputs_present (subject analysis k : pystr) :
  In k (input_variables email_prompt) ->
  supplied (<[py "analysis" := Str analysis]> {[ py "subject" := Str subject ]} : values) k.
Proof.
  intros [<-|[<-|[]]].
  - exists (Str subject). split; [|apply printable_Str].
    rewrite lookup_insert_ne by (vm_compute; discriminate).
    apply lookup_singleton_eq.
  - exists (Str analysis). split; [|apply printable_Str].
    apply lookup_insert_eq.
Qed.

Lemma pipeline_run (client : LLM) (subject : pystr) (tr : Trace) :
  let inputs : values := {[ py "subject" := Str subject ]} in
  let p1 := fill (fst (parse (template analysis_prompt))) inputs in
  let known analysis : values := <[py "analysis" := Str analysis]> inputs in
  let p2 analysis := fill (fst (parse (template email_prompt))) (known analysis) in
  let sc := {| chains := [analysis_chain client; email_chain client];
               seq_input_variables := [py "subject"];
               output_variables := [py "analysis"; py "email"] |} in
  SequentialChain_call backend sc inputs tr
  = match backend tr client p1 with
    | inl e => (inl e, tr ++ [(client, p1)])
    | inr analysis =>
        match backend (tr ++ [(client, p1)]) client (p2 analysis) with
        | inl e => (inl e, (tr ++ [(client, p1)]) ++ [(client, p2 analysis)])
        | inr email =>
            (inr (<[py "analysis" := Str analysis]> (<[py "email" := Str email]> ∅)
                    ∪ inputs, sc),
             (tr ++ [(client, p1)]) ++ [(client, p2 analysis)])
        end
    end.
Proof.
  intros inputs p1 known p2 sc.
  unfold SequentialChain_call, prep_inputs.
  cbn [seq_input_variables chains output_variables sc run_steps].
  rewrite (has_keys [py "subject"] inputs)
    by (intros k Hin; apply supplied_is_Some; now apply analysis_inputs_present).
  unfold bind, lift, ret. cbv beta.
  rewrite (Chain_call_plain backend (analysis_chain client) inputs true tr
             eq_refl analysis_well_formed (analysis_inputs_present subject)).
  change (llm (analysis_chain client)) with client.
  change (fill _ inputs) with p1.
  destruct (backend tr client p1) as [e|analysis]; [reflexivity|].
  cbn [fst snd output_key analysis_chain].
  rewrite <- insert_union_singleton_l. fold (known analysis).
  rewrite (Chain_call_plain backend (email_chain client) (known analysis) true _
             eq_refl email_well_formed (email_inputs_present subject analysis)).
  change (llm (email_chain client)) with client.
  change (fill _ (known analysis)) with (p2 analysis).
  destruct (backend (tr ++ [(client, p1)]) client (p2 analysis)) as [e|email];
    [reflexivity|].
  cbn [fst snd output_key email_chain select].
  assert (Ha : ({[ py "email" := Str email ]} ∪ known analysis : values) !! py "analysis"
               = Some (Str analysis)).
  { rewrite lookup_union_r
      by (apply lookup_singleton_ne; vm_compute; discriminate).
    apply lookup_insert_eq. }
  assert (He : ({[ py "email" := Str email ]} ∪ known analysis : values) !! py "email"
               = Some (Str email)).
  { rewrite lookup_union_l' by (rewrite lookup_singleton_eq; eauto).
    apply lookup_singleton_eq. }
  rewrite Ha, He. reflexivity.
Qed.

(** C2. The pipeline built by [create_advanced_email_chain] is built
    without error, and for every subject it first sends the analysis
    template rendered with the subject; with the analysis text the
    backend returns it then sends the email template rendered with the
    subject and that analysis, so the second prompt contains the analysis
    text literally; the result holds the two outputs under "analysis" and
    "email" (next to the input "subject").  A step whose call fails ends
    the run, and no later call is made. *)
Theorem analysis_then_email (client : LLM) (subject : pystr) (tr : Trace) :
  exists sc p1,
    create_advanced_email_chain client = inr sc
    /\ format analysis_prompt {[ py "subject" := Str subject ]} = inr p1
    /\ contains p1 subject
    /\ (forall e,
           backend tr client p1 = inl e ->
           SequentialChain_call backend sc {[ py "subject" := Str subject ]} tr
           = (inl e, tr ++ [(client, p1)]))
    /\ (forall analysis,
           backend tr client p1 = inr analysis ->
           exists p2,
             format email_prompt
               (<[py "analysis" := Str analysis]> {[ py "subject" := Str subject ]})
             = inr p2
             /\ contains p2 analysis
             /\ contains p2 subject
             /\ (forall e,
                    backend (tr ++ [(client, p1)]) client p2 = inl e ->
                    SequentialChain_call backend sc {[ py "subject" := Str subject ]} tr
                    = (inl e, tr ++ [(client, p1); (client, p2)]))
             /\ (forall email,
                    backend (tr ++ [(client, p1)]) client p2 = inr email ->
                    exists result,
                      SequentialChain_call backend sc {[ py "subject" := Str subject ]} tr
                      = (inr (result, sc), tr ++ [(client, p1); (client, p2)])
                      /\ result !! py "analysis" = Some (Str analysis)
                      /\ result !! py "email" = Some (Str email)
                      /\ result !! py "subject" = Some (Str subject))).
Proof.
  pose proof (pipeline_run client subject tr) as Hrun. cbv zeta in Hrun.
  set (inputs := ({[ py "subject" := Str subject ]} : values)) in *.
  set (p1 := fill (fst (parse (template analysis_prompt))) inputs) in *.
  set (sc := {| chains := [analysis_chain client; email_chain client];
                seq_input_variables := [py "subject"];
                output_variables := [py "analysis"; py "email"] |}) in *.
  exists sc, p1.
  split; [apply create_advanced_email_chain_built|].
  split.
  { now destruct (format_well_formed analysis_prompt inputs analysis_well_formed
                    (analysis_inputs_present subject)) as (sel & _ & _ & Hfmt). }
  split.
  { apply (mentions_contains analysis_prompt inputs (py "subject") (Str subject)).
    - vm_compute. reflexivity.
    - apply lookup_singleton_eq. }
  split.
  { intros e He. rewrite Hrun, He. reflexivity. }
  intros analysis Ha. rewrite Ha in Hrun.
  set (known := (<[py "analysis" := Str analysis]> inputs : values)) in *.
  set (p2 := fill (fst (parse (template email_prompt))) known) in *.
  exists p2.
  split.
  { now destruct (format_well_formed email_prompt known email_well_formed
                    (email_inputs_present subject analysis)) as (sel & _ & _ & Hfmt). }
  split.
  { apply (mentions_contains email_prompt known (py "analysis") (Str analysis)).
    - vm_compute. reflexivity.
    - apply lookup_insert_eq. }
  split.
  { apply (mentions_contains email_prompt known (py "subject") (Str subject)).
    - vm_compute. reflexivity.
    - unfold known. rewrite lookup_insert_ne by (vm_compute; discriminate).
      apply lookup_singleton_eq. }
  split.
  { intros e He. rewrite Hrun, He, <- app_assoc. reflexivity. }
  intros email He. rewrite He in Hrun.
  eexists. split; [rewrite Hrun, <- app_assoc; reflexivity|].
  split; [|split].
  - rewrite lookup_union_l' by (rewrite lookup_insert_eq; eauto).
    apply lookup_insert_eq.
  - rewrite lookup_union_l'.
    + rewrite lookup_insert_ne by (vm_compute; discriminate).
      apply lookup_insert_eq.
    + rewrite lookup_insert_ne by (vm_compute; discriminate).
      rewrite lookup_insert_eq. eauto.
  - rewrite lookup_union_r.
    + apply lookup_singleton_eq.
    + rewrite !lookup_insert_ne by (vm_compute; discriminate).
      apply lookup_empty.
Qed.

End PipelineFacts.

Lemma analysis_then_email_witness :
  let client := OpenAI (7 # 10) 1024 (py "gpt-3.5-turbo-instruct") (py "sk-test") in
  let subject := py "Exclusive Invitation to Our Premium Webinar" in
  exists sc p1 p2 result,
    AdvancedFeatures.create_advanced_email_chain client = inr sc
    /\ numbered [] client p1 = inr (py "reply 0")
    /\ numbered [(client, p1)] client p2 = inr (py "reply 1")
    /\ contains p2 (py "reply 0")
    /\ SequentialChain_call numbered sc {[ py "subject" := Str subject ]} []
       = (inr (result, sc), [(client, p1); (client, p2)])
    /\ result !! py "analysis" = Some (Str (py "reply 0"))
    /\ result !! py "email" = Some (Str (py "reply 1")).
Proof.
  intros client subject.
  destruct (analysis_then_email numbered client subject [])
    as (sc & p1 & Hsc & _ & _ & _ & H).
  destruct (H (py "reply 0") eq_refl) as (p2 & _ & Hc & _ & _ & H2).
  destruct (H2 (py "reply 1") eq_refl) as (result & Hrun & Ha & He & _).
  exists sc, p1, p2, result.
  split; [exact Hsc|]. split; [reflexivity|]. split; [reflexivity|].
  split; [exact Hc|]. split; [exact Hrun|]. split; [exact Ha | exact He].
Defined.

(** ** The end-to-end example

    Subject "Quarterly Strategy Meeting - June 15th", professional tone,
    three paragraphs, no postscript, default provider, and a backend that
    answers with the length of its prompt, padded with whitespace: the
    result is the length alone. *)
Example end_to_end :
  fst (AdvancedFeatures.generate_email_with_settings
         no_openai_key_in_environment echo_length ascii_lower
         (py "Quarterly Strategy Meeting - June 15th") (py "sk-test") (py "default")
         (py "Professional") 3 false [])
  = inr (py "924").
Proof. vm_compute. reflexivity. Qed.

(** * Further properties *)

(** ** More on strings and rendering *)

Section MoreStringFacts.

Lemma is_prefix_refl_app (a rest : pystr) : is_prefix a (a ++ rest) = true.
Proof.
  induction a as [|x a IH]; [reflexivity|].
  simpl. now rewrite N.eqb_refl, IH.
Qed.

Lemma containsb_contains (hay needle : pystr) :
  containsb hay needle = true <-> contains hay needle.
Proof.
  split.
  - induction hay as [|c hay IH]; simpl; intros H.
    + rewrite orb_false_r in H. destruct (is_prefix_app _ _ H) as (rest & ->).
      now exists [], rest.
    + apply orb_true_iff in H as [H|H].
      * destruct (is_prefix_app _ _ H) as (rest & ->). now exists [], rest.
      * destruct (IH H) as (pre & suf & ->). now exists (c :: pre), suf.
  - intros (pre & suf & ->). induction pre as [|c pre IH].
    + cbn [app]. pose proof (is_prefix_refl_app needle suf) as Hp.
      destruct (needle ++ suf); cbn [containsb]; now rewrite Hp.
    + cbn [app containsb]. rewrite IH. apply orb_true_r.
Qed.

Lemma containsb_not_contains (hay needle : pystr) :
  containsb hay needle = false -> ~ contains hay needle.
Proof.
  intros H Hc. apply containsb_contains in Hc. congruence.
Qed.

Lemma lstrip_all_space (s : pystr) : all_space s -> lstrip s = [].
Proof.
  unfold all_space. induction s as [|c s IH]; simpl; intros H; [reflexivity|].
  apply andb_true_iff in H as [Hc H]. rewrite Hc. now apply IH.
Qed.

(** A reply made of whitespace strips to the empty string. *)
Lemma strip_all_space (s : pystr) : all_space s -> strip s = [].
Proof.
  intros H. unfold strip, rstrip. now rewrite (lstrip_all_space s H).
Qed.

Lemma fill_app (pre rest : list segment) (kwargs : values) :
  fill (pre ++ rest) kwargs = fill pre kwargs ++ fill rest kwargs.
Proof.
  induction pre as [|[l|n] pre IH]; simpl; [reflexivity| |];
    now rewrite IH, <- app_assoc.
Qed.

(** Text found in a literal part of a template is in every rendering. *)
Lemma fill_contains_literal (segs : list segment) (kwargs : values) (x : pystr) :
  existsb (fun l => containsb l x) (literals segs) = true ->
  contains (fill segs kwargs) x.
Proof.
  induction segs as [|[l|n] segs IH]; simpl; intros H.
  - discriminate.
  - apply orb_true_iff in H as [H|H].
    + apply contains_app_r. now apply containsb_contains.
    + apply contains_app_l. now apply IH.
  - apply contains_app_l. now apply IH.
Qed.

(** The first placeholder without a value is the one the [KeyError]
    names, the placeholders before it having values that print. *)
Lemma substitute_missing (segs : list segment) (stop : option exn) (kwargs : values)
      (n : pystr) :
  forall pre post,
    field_names segs = pre ++ n :: post ->
    (forall m, In m pre -> supplied kwargs m) ->
    kwargs !! n = None ->
    substitute segs stop kwargs = inl (KeyError n).
Proof.
  induction segs as [|[l|m] segs IH]; intros pre post Hf Hpre Hn; simpl in *.
  - destruct pre; discriminate.
  - now rewrite (IH pre post Hf Hpre Hn).
  - destruct pre as [|m' pre].
    + injection Hf as -> _. now rewrite Hn.
    + injection Hf as -> Hf.
      destruct (Hpre m') as (v & -> & Hp); [now left|].
      unfold printable in Hp. rewrite Hp.
      rewrite (IH pre post Hf); [reflexivity| |exact Hn].
      intros k Hk. apply Hpre. now right.
Qed.

End MoreStringFacts.

(** ** More on the customized template *)

Section MoreTemplateFacts.
Import AdvancedFeatures.

Ltac split_on_options tone include_ps :=
  unfold create_custom_email_template;
  destruct (str_eqb tone (py "formal"));
  [|destruct (str_eqb tone (py "friendly"));
    [|destruct (str_eqb tone (py "urgent"))]];
  destruct include_ps.

Lemma custom_template_assembled (tone : pystr) (length : Z) (include_ps : bool) :
  create_custom_email_template tone length include_ps
  = {| input_variables := [py "subject"; py "tone"; py "length"];
       template := assemble (classify tone) include_ps |}.
Proof.
  unfold assemble, classify. split_on_options tone include_ps;
    cbn [tone_block]; rewrite <- ?app_assoc; reflexivity.
Qed.

Lemma assemble_inj (c c' : tone_class) (ps ps' : bool) :
  assemble c ps = assemble c' ps' -> c = c' /\ ps = ps'.
Proof.
  intros H. apply (f_equal (@List.length N)) in H.
  destruct c, c', ps, ps'; try (split; reflexivity);
    vm_compute in H; discriminate H.
Qed.

(** X2. Two calls of [create_custom_email_template] return the same
    template exactly when they agree on the postscript flag and on which
    of the three recognised tones (or none of them) the tone is: the
    paragraph count never changes the template, and each of the eight
    combinations gives a template of its own. *)
Theorem custom_templates_equal_iff
        (tone tone' : pystr) (length length' : Z) (include_ps include_ps' : bool) :
  create_custom_email_template tone length include_ps
  = create_custom_email_template tone' length' include_ps'
  <-> classify tone = classify tone' /\ include_ps = include_ps'.
Proof.
  split.
  - rewrite !custom_template_assembled. intros H.
    apply (f_equal template) in H. cbn [template] in H. now apply assemble_inj.
  - intros [Hc ->]. now rewrite !custom_template_assembled, Hc.
Qed.

Lemma custom_ps_checks (tone : pystr) (length : Z) (include_ps : bool) :
  containsb (template (create_custom_email_template tone length include_ps)) (py "P.S.")
  = include_ps
  /\ containsb (template (create_custom_email_template tone length include_ps))
       (py "6. A brief PS line")
     = include_ps.
Proof. split_on_options tone include_ps; vm_compute; split; reflexivity. Qed.

(** X3. The template asks for a postscript exactly when [include_ps] is
    set: the instruction "6. A brief PS line" and the line "P.S." are
    both in the template when it is, and neither is when it is not,
    whatever the tone and the paragraph count. *)
Theorem postscript_iff_requested (tone : pystr) (length : Z) (include_ps : bool) :
  (contains (template (create_custom_email_template tone length include_ps)) (py "P.S.")
   <-> include_ps = true)
  /\ (contains (template (create_custom_email_template tone length include_ps))
        (py "6. A brief PS line")
      <-> include_ps = true).
Proof.
  destruct (custom_ps_checks tone length include_ps) as [H1 H2].
  split; rewrite <- containsb_contains; [rewrite H1 | rewrite H2]; reflexivity.
Qed.

Lemma base_fields :
  snd (parse (template base_prompt)) = None
  /\ field_names (fst (parse (template base_prompt))) = [py "subject"].
Proof. vm_compute. split; reflexivity. Qed.

(** X4. Rendering a template with a variable missing raises [KeyError]
    naming that variable, the first missing one in the order subject,
    tone, length for a customized template (the variables before it
    being there, with values that print), and subject for the base
    template of the page. *)
Theorem missing_variable_is_named
        (tone : pystr) (length : Z) (include_ps : bool) (kwargs : values) :
  let p := create_custom_email_template tone length include_ps in
  (kwargs !! py "subject" = None ->
   format p kwargs = inl (KeyError (py "subject")))
  /\ (supplied kwargs (py "subject") ->
      kwargs !! py "tone" = None ->
      format p kwargs = inl (KeyError (py "tone")))
  /\ (supplied kwargs (py "subject") ->
      supplied kwargs (py "tone") ->
      kwargs !! py "length" = None ->
      format p kwargs = inl (KeyError (py "length")))
  /\ (kwargs !! py "subject" = None ->
      format base_prompt kwargs = inl (KeyError (py "subject"))).
Proof.
  intros p. destruct (custom_fields tone length include_ps) as [Hstop Hf].
  fold p in Hstop, Hf. unfold format.
  destruct (parse (template p)) as [segs stop]. cbn [fst snd] in Hstop, Hf.
  split; [|split; [|split]].
  - intros Hs. apply (substitute_missing segs stop kwargs _ [] _ Hf); [intros m []|exact Hs].
  - intros Hs Ht.
    apply (substitute_missing segs stop kwargs _ [py "subject"] _ Hf); [|exact Ht].
    intros m [<-|[]]. exact Hs.
  - intros Hs Ht Hl.
    apply (substitute_missing segs stop kwargs _ [py "subject"; py "tone"] _ Hf);
      [|exact Hl].
    intros m [<-|[<-|[]]]; assumption.
  - intros Hs. destruct base_fields as [_ Hb].
    destruct (parse (template base_prompt)) as [bsegs bstop]. cbn [fst] in Hb.
    apply (substitute_missing bsegs bstop kwargs _ [] _ Hb); [intros m []|exact Hs].
Qed.

Lemma missing_variable_is_named_witness :
  let p := create_custom_email_template (py "friendly") 2 false in
  let kwargs : values :=
    <[py "subject" := Str (py "Thank you")]> (<[py "length" := Int 2]> ∅) in
  supplied kwargs (py "subject")
  /\ kwargs !! py "tone" = None
  /\ format p kwargs = inl (KeyError (py "tone")).
Proof.
  intros p kwargs.
  assert (Hs : supplied kwargs (py "subject")).
  { exists (Str (py "Thank you")). split; [apply lookup_insert_eq | reflexivity]. }
  assert (Ht : kwargs !! py "tone" = None) by (vm_compute; reflexivity).
  split; [exact Hs|]. split; [exact Ht|].
  exact (proj1 (proj2 (missing_variable_is_named (py "friendly") 2 false kwargs)) Hs Ht).
Defined.

(** X5. Rendering looks at the declared variables only: two sets of
    keyword arguments that agree on the declared variables of a template
    of the program render it alike, whatever else they hold. *)
Theorem rendering_reads_declared_variables_only
        (p : PromptTemplate) (kwargs kwargs' : values) :
  registered p ->
  (forall k, In k (input_variables p) -> kwargs !! k = kwargs' !! k) ->
  format p kwargs = format p kwargs'.
Proof.
  intros Hreg Hagree. pose proof (registered_well_formed p Hreg) as Hwf.
  unfold well_formed in Hwf. unfold format.
  destruct (parse (template p)) as [segs [e|]]; [discriminate|].
  apply andb_true_iff in Hwf as [Hnames _]. rewrite forallb_forall in Hnames.
  apply substitute_ext. intros n Hn. apply Hagree.
  apply known_in_In. now apply Hnames.
Qed.

Lemma rendering_reads_declared_variables_only_witness :
  let kwargs : values := {[ py "subject" := Str (py "Thank you") ]} in
  let kwargs' : values := <[py "signature" := Str (py "The team")]> kwargs in
  registered base_prompt
  /\ (forall k, In k (input_variables base_prompt) -> kwargs !! k = kwargs' !! k)
  /\ format base_prompt kwargs = format base_prompt kwargs'.
Proof.
  intros kwargs kwargs'.
  assert (Hreg : registered base_prompt) by now left.
  assert (Hk : forall k, In k (input_variables base_prompt) -> kwargs !! k = kwargs' !! k).
  { intros k [<-|[]]. vm_compute. reflexivity. }
  split; [exact Hreg|]. split; [exact Hk|].
  exact (rendering_reads_declared_variables_only base_prompt kwargs kwargs' Hreg Hk).
Defined.

Lemma custom_header_segments (tone : pystr) (length : Z) (include_ps : bool) :
  firstn 6 (fst (parse (template (create_custom_email_template tone length include_ps))))
  = [ Lit header_intro; Field (py "subject");
      Lit (LF ++ py "    REQUESTED TONE: "); Field (py "tone");
      Lit (LF ++ py "    EMAIL LENGTH: "); Field (py "length") ].
Proof. split_on_options tone include_ps; vm_compute; reflexivity. Qed.

Lemma custom_tone_block_literal (tone : pystr) (length : Z) (include_ps : bool) :
  existsb (fun l => containsb l (tone_block (classify tone)))
    (literals (fst (parse (template
                             (create_custom_email_template tone length include_ps)))))
  = true.
Proof.
  unfold classify. split_on_options tone include_ps; vm_compute; reflexivity.
Qed.

End MoreTemplateFacts.

(** ** More on providers and single-step generation *)

Section MoreGenerationFacts.
Import AdvancedFeatures.

Variable refuses : LLM -> option exn.


Variable backend : Backend.
Variable lower : pystr -> pystr.

Lemma settings_run_sent
      (subject api_key model_type tone : pystr) (length : Z) (include_ps : bool)
      (tr : Trace) (client : LLM) (shown : pystr) :
  get_llm_by_provider refuses model_type api_key = inr client ->
  str_of_int length = inr shown ->
  let sent := fill (fst (parse (template
                          (create_custom_email_template (lower tone) length include_ps))))
                (settings_kwargs subject (lower tone) length) in
  generate_email_with_settings refuses backend lower
    subject api_key model_type tone length include_ps tr
  = outcome (backend tr client sent) client sent tr.
Proof.
  intros Hclient Hshown sent.
  pose proof (generate_email_with_settings_run refuses backend lower
                subject api_key model_type tone length include_ps tr) as Hrun.
  cbv zeta in Hrun. now rewrite Hclient, Hshown in Hrun.
Qed.

(** X7. When the client is built and the paragraph count prints, the
    prompt [generate_email_with_settings] sends opens with the fixed
    introduction followed by the subject, the lowered tone and the
    decimal paragraph count, each verbatim on its line: no value is
    escaped, trimmed or re-read as a template. *)
Theorem settings_prompt_header
        (subject api_key model_type tone : pystr) (length : Z) (include_ps : bool)
        (tr : Trace) (client : LLM) (shown : pystr) :
  get_llm_by_provider refuses model_type api_key = inr client ->
  str_of_int length = inr shown ->
  exists sent rest,
    snd (generate_email_with_settings refuses backend lower
           subject api_key model_type tone length include_ps tr)
    = tr ++ [(client, sent)]
    /\ sent = header subject (lower tone) shown ++ rest.
Proof.
  intros Hclient Hshown.
  pose proof (settings_run_sent subject api_key model_type tone length include_ps tr
                client shown Hclient Hshown) as Hrun.
  cbv zeta in Hrun.
  set (p := create_custom_email_template (lower tone) length include_ps) in *.
  set (kwargs := settings_kwargs subject (lower tone) length) in *.
  exists (fill (fst (parse (template p))) kwargs),
         (fill (skipn 6 (fst (parse (template p)))) kwargs).
  split; [rewrite Hrun; reflexivity|].
  rewrite <- (firstn_skipn 6 (fst (parse (template p)))) at 1.
  rewrite fill_app. unfold p at 1. rewrite custom_header_segments.
  cbn [fill]. unfold kwargs at 1 2 3.
  rewrite settings_lookup_subject, settings_lookup_tone, settings_lookup_length.
  unfold header. cbn [default from_option shown_as].
  rewrite (str_of_int_decimal length shown Hshown).
  rewrite app_nil_r, <- !app_assoc. reflexivity.
Qed.

(** X8. The tone selects its fragment after lowering: when the client is
    built, the paragraph count prints and the lowered tone is "formal",
    "friendly" or "urgent", the prompt [generate_email_with_settings]
    sends contains the guidance block of that tone. *)
Theorem lowered_tone_selects_block
        (subject api_key model_type tone : pystr) (length : Z) (include_ps : bool)
        (tr : Trace) (client : LLM) (shown : pystr) :
  get_llm_by_provider refuses model_type api_key = inr client ->
  str_of_int length = inr shown ->
  exists sent,
    snd (generate_email_with_settings refuses backend lower
           subject api_key model_type tone length include_ps tr)
    = tr ++ [(client, sent)]
    /\ (lower tone = py "formal" -> contains sent formal_block)
    /\ (lower tone = py "friendly" -> contains sent friendly_block)
    /\ (lower tone = py "urgent" -> contains sent urgent_block).
Proof.
  intros Hclient Hshown.
  pose proof (settings_run_sent subject api_key model_type tone length include_ps tr
                client shown Hclient Hshown) as Hrun.
  cbv zeta in Hrun.
  pose proof (fill_contains_literal _ (settings_kwargs subject (lower tone) length) _
                (custom_tone_block_literal (lower tone) length include_ps)) as Hblock.
  eexists. split; [rewrite Hrun; reflexivity|].
  split; [|split]; intros Ht;
    [replace formal_block with (tone_block (classify (lower tone)))
       by (now rewrite Ht)
    |replace friendly_block with (tone_block (classify (lower tone)))
       by (now rewrite Ht)
    |replace urgent_block with (tone_block (classify (lower tone)))
       by (now rewrite Ht)];
    exact Hblock.
Qed.

(** X9. A reply made of whitespace only gives the empty string: neither
    [generate_email_with_settings] nor [generate_email] rejects it, and
    the page stores the empty email as the generated one. *)
Theorem blank_reply_gives_empty_email
        (subject api_key model_type tone : pystr) (length : Z) (include_ps : bool)
        (selected_model : App.model_parameters) (tr : Trace) (w : App.World)
        (reply : pystr) :
  all_space reply ->
  (forall client sent,
      snd (generate_email_with_settings refuses backend lower
             subject api_key model_type tone length include_ps tr)
      = tr ++ [(client, sent)] ->
      backend tr client sent = inr reply ->
      fst (generate_email_with_settings refuses backend lower
             subject api_key model_type tone length include_ps tr)
      = inr [])
  /\ (forall client sent,
         subject <> [] ->
         App.load_llm api_key w = (inr client, App.set_llm_cache w (Some client)) ->
         format base_prompt {[ py "subject" := Str subject ]} = inr sent ->
         backend (App.calls w) client sent = inr reply ->
         App.session_state (App.generate_button backend subject api_key selected_model w)
           !! py "generated_email"
         = Some []).
Proof.
  intros Hspace. split.
  - intros client sent Hsent Hreply.
    pose proof (generate_email_with_settings_run refuses backend lower
                  subject api_key model_type tone length include_ps tr) as Hrun.
    cbv zeta in Hrun.
    set (sent0 := fill (fst (parse (template (create_custom_email_template
                                                 (lower tone) length include_ps))))
                    (settings_kwargs subject (lower tone) length)) in *.
    rewrite Hrun in Hsent |- *. clear Hrun.
    destruct (get_llm_by_provider refuses model_type api_key) as [e|client0].
    { cbn [snd] in Hsent. rewrite <- (app_nil_r tr) in Hsent at 1.
      apply app_inv_head in Hsent. discriminate Hsent. }
    destruct (str_of_int length) as [e|shown].
    { cbn [snd] in Hsent. rewrite <- (app_nil_r tr) in Hsent at 1.
      apply app_inv_head in Hsent. discriminate Hsent. }
    unfold outcome in Hsent. cbn [snd] in Hsent.
    apply app_inv_head in Hsent.
    assert (Heq : sent0 = sent) by congruence.
    assert (Heqc : client0 = client) by congruence.
    clearbody sent0. subst sent0 client0.
    unfold outcome. cbn [fst]. rewrite Hreply.
    now rewrite (strip_all_space reply Hspace).
  - intros client sent Hs Hload Hfmt Hreply.
    pose proof (generate_button_run backend subject api_key selected_model w client
                  Hs Hload) as Hrun.
    destruct (base_prompt_renders subject) as [Hsent _].
    set (sent0 := fill (fst (parse (template base_prompt)))
                    {[ py "subject" := Str subject ]}) in *.
    assert (Heq : sent0 = sent) by congruence.
    clearbody sent0. subst sent0.
    cbv zeta in Hrun. rewrite Hreply in Hrun. rewrite Hrun.
    cbn [App.session_state App.set_session_state].
    rewrite lookup_insert_ne by (vm_compute; discriminate).
    rewrite lookup_insert_eq. now rewrite (strip_all_space reply Hspace).
Qed.

End MoreGenerationFacts.

Lemma settings_prompt_header_witness :
  let client := ChatAnthropic (7 # 10) 1024 (py "claude-2") (py "sk-ant-test") in
  AdvancedFeatures.get_llm_by_provider no_openai_key_in_environment
    (py "anthropic") (py "sk-ant-test") = inr client
  /\ str_of_int 4 = inr (py "4")
  /\ exists sent rest,
      snd (AdvancedFeatures.generate_email_with_settings
             no_openai_key_in_environment echo_length ascii_lower
             (py "Contract {renewal}") (py "sk-ant-test") (py "anthropic")
             (py "Friendly") 4 true [])
      = [(client, sent)]
      /\ sent = header (py "Contract {renewal}") (py "friendly") (py "4") ++ rest.
Proof.
  intros client.
  assert (Hclient : AdvancedFeatures.get_llm_by_provider no_openai_key_in_environment
                      (py "anthropic") (py "sk-ant-test") = inr client) by reflexivity.
  assert (Hshown : str_of_int 4 = inr (py "4")) by (vm_compute; reflexivity).
  split; [exact Hclient|]. split; [exact Hshown|].
  exact (settings_prompt_header no_openai_key_in_environment echo_length ascii_lower
           (py "Contract {renewal}") (py "sk-ant-test") (py "anthropic")
           (py "Friendly") 4 true [] client (py "4") Hclient Hshown).
Defined.

Lemma lowered_tone_selects_block_witness :
  let client := OpenAI (7 # 10) 1024 (py "gpt-3.5-turbo-instruct") (py "sk-test") in
  let run :=
    AdvancedFeatures.generate_email_with_settings
      no_openai_key_in_environment echo_length ascii_lower
      (py "Contract renewal") (py "sk-test") (py "openai") (py "Formal") 2 false [] in
  AdvancedFeatures.get_llm_by_provider no_openai_key_in_environment
    (py "openai") (py "sk-test") = inr client
  /\ str_of_int 2 = inr (py "2")
  /\ ascii_lower (py "Formal") = py "formal"
  /\ exists sent,
      snd run = [(client, sent)]
      /\ contains sent AdvancedFeatures.formal_block.
Proof.
  intros client run.
  assert (Hclient : AdvancedFeatures.get_llm_by_provider no_openai_key_in_environment
                      (py "openai") (py "sk-test") = inr client) by reflexivity.
  assert (Hshown : str_of_int 2 = inr (py "2")) by (vm_compute; reflexivity).
  assert (Hl : ascii_lower (py "Formal") = py "formal") by (vm_compute; reflexivity).
  split; [exact Hclient|]. split; [exact Hshown|]. split; [exact Hl|].
  destruct (lowered_tone_selects_block no_openai_key_in_environment
              echo_length ascii_lower
              (py "Contract renewal") (py "sk-test") (py "openai") (py "Formal")
              2 false [] client (py "2") Hclient Hshown)
    as (sent & Hsent & Hformal & _).
  exists sent. split; [exact Hsent | exact (Hformal Hl)].
Defined.

Lemma blank_reply_gives_empty_email_witness :
  let reply := py "  " ++ LF ++ py " " in
  let subject := py "Thank You for Our Conversation Yesterday" in
  let client := ChatGroq (7 # 10) 1024 (py "llama3-8b-8192") (py "gsk-test") in
  let sent := fill (fst (parse (template base_prompt)))
                {[ py "subject" := Str subject ]} in
  all_space reply
  /\ blank [] client sent = inr reply
  /\ App.session_state
       (App.generate_button blank subject (py "gsk-test")
          (App.model_mapping App.llama3_8b_8192) empty_world)
       !! py "generated_email"
     = Some [].
Proof.
  intros reply subject client sent.
  assert (Hspace : all_space reply) by (vm_compute; reflexivity).
  split; [exact Hspace|]. split; [reflexivity|].
  refine (proj2 (blank_reply_gives_empty_email no_openai_key_in_environment
                   blank ascii_lower
                   subject (py "gsk-test") (py "groq") (py "Professional") 3 false
                   (App.model_mapping App.llama3_8b_8192) [] empty_world reply Hspace)
            client sent _ _ _ _).
  - discriminate.
  - reflexivity.
  - vm_compute. reflexivity.
  - reflexivity.
Defined.

(** ** More on the page *)

Section MorePageFacts.
Import App.

Variable backend : Backend.

(** X10. [load_llm] keeps the first client: a second call returns the
    client of the first call and changes nothing, whatever key it is
    given; on an empty cache that client carries the key of the first
    call. *)
Theorem first_api_key_wins (first_key later_key : pystr) (w : World) :
  exists client,
    load_llm first_key w = (inr client, set_llm_cache w (Some client))
    /\ load_llm later_key (set_llm_cache w (Some client))
       = (inr client, set_llm_cache w (Some client))
    /\ (llm_cache w = None ->
        client = ChatGroq (7 # 10) 1024 (py "llama3-8b-8192") first_key).
Proof.
  destruct (load_llm_run first_key w) as (client & Hload & Hnew & _).
  exists client. split; [exact Hload|]. split; [reflexivity | exact Hnew].
Qed.

Lemma base_frames_subject :
  framed (py "SUBJECT: ") (py "subject") LF (fst (parse (template base_prompt))) = true.
Proof. vm_compute. reflexivity. Qed.

(** What a click on "Generate Email" does, with the client spelled out. *)
Lemma generate_button_cases (subject api_key : pystr) (selected_model : model_parameters)
      (w : World) :
  (subject = []
   /\ generate_button backend subject api_key selected_model w
      = show w (st_warning (py "Please enter a subject for your email.")))
  \/ exists client sent,
      subject <> []
      /\ load_llm api_key w = (inr client, set_llm_cache w (Some client))
      /\ (llm_cache w = None ->
          client = ChatGroq (7 # 10) 1024 (py "llama3-8b-8192") api_key)
      /\ (forall c, llm_cache w = Some c -> client = c)
      /\ contains sent (py "SUBJECT: " ++ subject ++ LF)
      /\ generate_button backend subject api_key selected_model w
         = match backend (calls w) client sent with
           | inr reply =>
               set_session_state
                 (set_calls (set_llm_cache w (Some client)) (calls w ++ [(client, sent)]))
                 (<[py "subject" := subject]>
                    (<[py "generated_email" := strip reply]> (session_state w)))
           | inl e =>
               show (set_calls (set_llm_cache w (Some client))
                       (calls w ++ [(client, sent)]))
                 (st_error (py "Error generating email: ") e)
           end.
Proof.
  destruct subject as [|c subject]; [left; split; reflexivity|].
  right. destruct (load_llm_run api_key w) as (client & Hload & Hnew & Hold).
  exists client. eexists.
  split; [discriminate|]. split; [exact Hload|]. split; [exact Hnew|].
  split; [exact Hold|]. split.
  - apply (framed_contains (py "SUBJECT: ") (py "subject") LF
             (fst (parse (template base_prompt)))
             {[ py "subject" := Str (c :: subject) ]} (Str (c :: subject))).
    + apply base_frames_subject.
    + apply lookup_singleton_eq.
  - apply (generate_button_run backend (c :: subject) api_key selected_model w client);
      [discriminate | exact Hload].
Qed.

(** X11. A click on "Generate Email" only appends to the record of
    backend calls, and appends at most one call; none with an empty
    subject; the prompt of the call carries the subject verbatim on its
    SUBJECT line. *)
Theorem one_call_per_click (subject api_key : pystr) (selected_model : model_parameters)
        (w : World) :
  exists made,
    calls (generate_button backend subject api_key selected_model w) = calls w ++ made
    /\ (List.length made <= 1)%nat
    /\ (subject = [] -> made = [])
    /\ (forall client sent,
           In (client, sent) made ->
           contains sent (py "SUBJECT: " ++ subject ++ LF)).
Proof.
  destruct (generate_button_cases subject api_key selected_model w)
    as [[Hs Hrun]|(client & sent & Hs & _ & _ & _ & Hc & Hrun)].
  - exists []. rewrite Hrun, app_nil_r.
    split; [reflexivity|]. split; [simpl; lia|]. split; [reflexivity|intros ? ? []].
  - exists [(client, sent)]. rewrite Hrun.
    split; [destruct (backend (calls w) client sent); reflexivity|].
    split; [simpl; lia|]. split; [intros ->; contradiction|].
    intros c s [[= <- <-]|[]]. exact Hc.
Qed.

(** X12. A click on "Generate Email" touches no entry of the session
    state other than "subject" and "generated_email", whether it
    succeeds, fails or is refused. *)
Theorem click_keeps_other_entries
        (subject api_key : pystr) (selected_model : model_parameters) (w : World)
        (k : pystr) :
  k <> py "subject" -> k <> py "generated_email" ->
  session_state (generate_button backend subject api_key selected_model w) !! k
  = session_state w !! k.
Proof.
  intros H1 H2.
  destruct (generate_button_cases subject api_key selected_model w)
    as [[Hs Hrun]|(client & sent & Hs & _ & _ & _ & _ & Hrun)]; rewrite Hrun.
  - reflexivity.
  - destruct (backend (calls w) client sent); [reflexivity|].
    cbn [session_state set_session_state].
    now rewrite !lookup_insert_ne by congruence.
Qed.

(** X13. Once a client is cached, every later click uses it and keeps
    it, whatever API key the click is given. *)
Theorem cached_client_is_kept
        (subject api_key : pystr) (selected_model : model_parameters) (w : World)
        (cached : LLM) :
  llm_cache w = Some cached ->
  llm_cache (generate_button backend subject api_key selected_model w) = Some cached
  /\ forall client sent,
      In (client, sent)
         (skipn (List.length (calls w))
            (calls (generate_button backend subject api_key selected_model w))) ->
      client = cached.
Proof.
  intros Hc.
  destruct (generate_button_cases subject api_key selected_model w)
    as [[Hs Hrun]|(client & sent & Hs & _ & _ & Hold & _ & Hrun)]; rewrite Hrun.
  - split; [exact Hc|]. cbn [calls show]. rewrite skipn_all. intros ? ? [].
  - rewrite (Hold cached Hc) in *.
    assert (Hcalls : calls match backend (calls w) cached sent with
                           | inr reply =>
                               set_session_state
                                 (set_calls (set_llm_cache w (Some cached))
                                    (calls w ++ [(cached, sent)]))
                                 (<[py "subject" := subject]>
                                    (<[py "generated_email" := strip reply]>
                                       (session_state w)))
                           | inl e =>
                               show (set_calls (set_llm_cache w (Some cached))
                                       (calls w ++ [(cached, sent)]))
                                 (st_error (py "Error generating email: ") e)
                           end
                     = calls w ++ [(cached, sent)])
      by (destruct (backend (calls w) cached sent); reflexivity).
    split; [destruct (backend (calls w) cached sent); reflexivity|].
    rewrite Hcalls, skipn_app, skipn_all, Nat.sub_diag. cbn [skipn app].
    intros c s [[= <- <-]|[]]. reflexivity.
Qed.

(** X14. The model chosen in the sidebar has no effect on a click: both
    choices leave the same state, and on an empty cache the call goes to
    the llama3-8b-8192 client in either case. *)
Theorem sidebar_choice_is_ignored (subject api_key : pystr) (choice choice' : model_choice)
        (w : World) :
  generate_button backend subject api_key (model_mapping choice) w
  = generate_button backend subject api_key (model_mapping choice') w
  /\ (llm_cache w = None ->
      forall client sent,
        In (client, sent)
           (skipn (List.length (calls w))
              (calls (generate_button backend subject api_key (model_mapping choice) w))) ->
        client = ChatGroq (7 # 10) 1024 (py "llama3-8b-8192") api_key).
Proof.
  split; [destruct choice, choice'; reflexivity|].
  intros Hnone.
  destruct (generate_button_cases subject api_key (model_mapping choice) w)
    as [[Hs Hrun]|(client & sent & Hs & _ & Hnew & _ & _ & Hrun)]; rewrite Hrun.
  - cbn [calls show]. rewrite skipn_all. intros ? ? [].
  - rewrite (Hnew Hnone) in *.
    set (groq := ChatGroq (7 # 10) 1024 (py "llama3-8b-8192") api_key) in *.
    assert (Hcalls : calls match backend (calls w) groq sent with
                           | inr reply =>
                               set_session_state
                                 (set_calls (set_llm_cache w (Some groq))
                                    (calls w ++ [(groq, sent)]))
                                 (<[py "subject" := subject]>
                                    (<[py "generated_email" := strip reply]>
                                       (session_state w)))
                           | inl e =>
                               show (set_calls (set_llm_cache w (Some groq))
                                       (calls w ++ [(groq, sent)]))
                                 (st_error (py "Error generating email: ") e)
                           end
                     = calls w ++ [(groq, sent)])
      by (destruct (backend (calls w) groq sent); reflexivity).
    rewrite Hcalls, skipn_app, skipn_all, Nat.sub_diag. cbn [skipn app].
    intros c s [[= <- <-]|[]]. reflexivity.
Qed.

End MorePageFacts.

Lemma first_api_key_wins_witness :
  let first := ChatGroq (7 # 10) 1024 (py "llama3-8b-8192") (py "gsk-first") in
  App.llm_cache empty_world = None
  /\ App.load_llm (py "gsk-first") empty_world
     = (inr first, App.set_llm_cache empty_world (Some first))
  /\ App.load_llm (py "gsk-second") (App.set_llm_cache empty_world (Some first))
     = (inr first, App.set_llm_cache empty_world (Some first)).
Proof.
  intros first.
  destruct (first_api_key_wins (py "gsk-first") (py "gsk-second") empty_world)
    as (client & H1 & H2 & H3).
  rewrite (H3 eq_refl) in H1, H2.
  split; [reflexivity|]. split; [exact H1 | exact H2].
Defined.

Lemma one_call_per_click_witness :
  exists made,
    App.calls (App.generate_button unreachable [] (py "gsk-test")
                 (App.model_mapping App.llama3_8b_8192) after_first_email)
    = App.calls after_first_email ++ made
    /\ made = [].
Proof.
  destruct (one_call_per_click unreachable [] (py "gsk-test")
              (App.model_mapping App.llama3_8b_8192) after_first_email)
    as (made & Hcalls & _ & Hempty & _).
  exists made. split; [exact Hcalls | exact (Hempty eq_refl)].
Defined.

Lemma click_keeps_other_entries_witness :
  py "draft" <> py "subject"
  /\ py "draft" <> py "generated_email"
  /\ App.session_state
       (App.generate_button numbered (py "Webinar reminder") (py "gsk-test")
          (App.model_mapping App.llama3_8b_8192) after_first_email)
       !! py "draft"
     = Some (py "kept").
Proof.
  assert (H1 : py "draft" <> py "subject") by (vm_compute; discriminate).
  assert (H2 : py "draft" <> py "generated_email") by (vm_compute; discriminate).
  split; [exact H1|]. split; [exact H2|].
  rewrite (click_keeps_other_entries numbered (py "Webinar reminder") (py "gsk-test")
             (App.model_mapping App.llama3_8b_8192) after_first_email (py "draft") H1 H2).
  vm_compute. reflexivity.
Defined.

Lemma cached_client_is_kept_witness :
  let first := ChatGroq (7 # 10) 1024 (py "llama3-8b-8192") (py "gsk-first") in
  App.llm_cache after_first_email = Some first
  /\ App.llm_cache
       (App.generate_button numbered (py "Webinar reminder") (py "gsk-second")
          (App.model_mapping App.llama2_70b_4096) after_first_email)
     = Some first.
Proof.
  intros first. split; [reflexivity|].
  exact (proj1 (cached_client_is_kept numbered (py "Webinar reminder") (py "gsk-second")
                  (App.model_mapping App.llama2_70b_4096) after_first_email first
                  eq_refl)).
Defined.

Lemma sidebar_choice_is_ignored_witness :
  App.llm_cache empty_world = None
  /\ App.generate_button numbered (py "Webinar reminder") (py "gsk-test")
       (App.model_mapping App.llama3_8b_8192) empty_world
     = App.generate_button numbered (py "Webinar reminder") (py "gsk-test")
         (App.model_mapping App.llama2_70b_4096) empty_world
  /\ forall client sent,
      In (client, sent)
         (skipn (List.length (App.calls empty_world))
            (App.calls
               (App.generate_button numbered (py "Webinar reminder") (py "gsk-test")
                  (App.model_mapping App.llama3_8b_8192) empty_world))) ->
      client = ChatGroq (7 # 10) 1024 (py "llama3-8b-8192") (py "gsk-test").
Proof.
  destruct (sidebar_choice_is_ignored numbered (py "Webinar reminder") (py "gsk-test")
              App.llama3_8b_8192 App.llama2_70b_4096 empty_world)
    as [Heq Hclient].
  split; [reflexivity|]. split; [exact Heq | exact (Hclient eq_refl)].
Defined.

(** ** The other controls of the page *)

Section ControlFacts.
Import App AppControls.

Variable backend : Backend.

(** What a click on "Regenerate" does, with the client spelled out. *)
Lemma regenerate_button_cases (api_key : pystr) (selected_model : model_parameters)
      (w : World) :
  (session_state w !! py "subject" = None
   /\ regenerate_button backend api_key selected_model w = (w, false))
  \/ exists stored client sent,
      session_state w !! py "subject" = Some stored
      /\ load_llm api_key w = (inr client, set_llm_cache w (Some client))
      /\ format base_prompt {[ py "subject" := Str stored ]} = inr sent
      /\ contains sent (py "SUBJECT: " ++ stored ++ LF)
      /\ regenerate_button backend api_key selected_model w
         = match backend (calls w) client sent with
           | inr reply =>
               (set_session_state
                  (set_calls (set_llm_cache w (Some client)) (calls w ++ [(client, sent)]))
                  (<[py "generated_email" := strip reply]> (session_state w)),
                true)
           | inl e =>
               (show (set_calls (set_llm_cache w (Some client))
                        (calls w ++ [(client, sent)]))
                  (st_error (py "Error regenerating email: ") e),
                false)
           end.
Proof.
  unfold regenerate_button.
  destruct (session_state w !! py "subject") as [stored|]; [|left; split; reflexivity].
  right. destruct (load_llm_run api_key w) as (client & Hload & _).
  exists stored, client. eexists.
  split; [reflexivity|]. split; [exact Hload|].
  split; [exact (proj1 (base_prompt_renders stored))|]. split.
  - apply (framed_contains (py "SUBJECT: ") (py "subject") LF
             (fst (parse (template base_prompt)))
             {[ py "subject" := Str stored ]} (Str stored)).
    + apply base_frames_subject.
    + apply lookup_singleton_eq.
  - rewrite (generate_email_run backend stored api_key (type selected_model) w client Hload).
    destruct (backend (calls w) client _); reflexivity.
Qed.


Lemma sample_loop_effect (samples : list pystr) (clicked : pystr -> bool) :
  forall (subject : pystr) (w : World),
    let r := sample_loop samples clicked subject w in
    calls (snd r) = calls w
    /\ llm_cache (snd r) = llm_cache w
    /\ shown (snd r) = shown w
    /\ (forall k, k <> py "subject" -> session_state (snd r) !! k = session_state w !! k)
    /\ ((forall s, In s samples -> clicked s = false) -> r = (subject, w))
    /\ ((exists s, In s samples /\ clicked s = true) ->
        In (fst r) samples
        /\ clicked (fst r) = true
        /\ session_state (snd r) !! py "subject" = Some (fst r)).
Proof.
  induction samples as [|sample rest IH]; intros subject w.
  - cbv zeta. cbn [sample_loop fst snd].
    split; [reflexivity|]. split; [reflexivity|]. split; [reflexivity|].
    split; [reflexivity|]. split; [reflexivity|].
    intros (s & [] & _).
  - cbv zeta. cbn [sample_loop]. destruct (clicked sample) eqn:Hc.
    + destruct (IH sample
                  (set_session_state w (<[py "subject" := sample]> (session_state w))))
        as (H1 & H2 & H3 & H4 & H5 & H6).
      cbv zeta in *.
      split; [exact H1|]. split; [exact H2|]. split; [exact H3|]. split.
      { intros k Hk. rewrite (H4 k Hk). cbn [session_state set_session_state].
        now rewrite lookup_insert_ne by congruence. }
      split.
      { intros Hnone. rewrite (Hnone sample) in Hc by now left. discriminate. }
      intros _.
      destruct (existsb clicked rest) eqn:Hex.
      * apply existsb_exists in Hex.
        destruct (H6 Hex) as (Hin & Hcl & Hst).
        split; [now right|]. split; assumption.
      * assert (Hnone : forall s, In s rest -> clicked s = false).
        { intros s Hs. destruct (clicked s) eqn:E; [|reflexivity].
          assert (existsb clicked rest = true)
            by (apply existsb_exists; now exists s).
          congruence. }
        rewrite (H5 Hnone). cbn [fst snd session_state set_session_state].
        split; [now left|]. split; [exact Hc|]. apply lookup_insert_eq.
    + destruct (IH subject w) as (H1 & H2 & H3 & H4 & H5 & H6). cbv zeta in *.
      split; [exact H1|]. split; [exact H2|]. split; [exact H3|].
      split; [exact H4|]. split.
      { intros Hnone. apply H5. intros s Hs. apply Hnone. now right. }
      intros (s & [<-|Hs] & Hcl); [congruence|].
      destruct (H6 (ex_intro _ s (conj Hs Hcl))) as (Hin & Hcl' & Hst).
      split; [now right|]. split; assumption.
Qed.

(** X16. The sample-subject buttons never call the backend and show no
    message, and they leave the stored email as it is; with no button
    pressed (or the samples hidden) the page goes on with the typed
    subject and the stored subject is what it was, and with a button
    pressed the subject the page goes on with is a pressed sample, stored
    under "subject" as well. *)
Theorem sample_buttons_effect
        (show_samples : bool) (clicked : pystr -> bool) (subject : pystr) (w : World) :
  let r := sample_buttons show_samples clicked subject w in
  calls (snd r) = calls w
  /\ llm_cache (snd r) = llm_cache w
  /\ shown (snd r) = shown w
  /\ session_state (snd r) !! py "generated_email"
     = session_state w !! py "generated_email"
  /\ (show_samples = false \/ (forall s, In s sample_subjects -> clicked s = false) ->
      fst r = subject
      /\ session_state (snd r) !! py "subject" = session_state w !! py "subject")
  /\ (show_samples = true ->
      (exists s, In s sample_subjects /\ clicked s = true) ->
      In (fst r) sample_subjects
      /\ clicked (fst r) = true
      /\ session_state (snd r) !! py "subject" = Some (fst r)).
Proof.
  intros r. unfold r, sample_buttons. destruct show_samples.
  - destruct (sample_loop_effect sample_subjects clicked subject w)
      as (H1 & H2 & H3 & H4 & H5 & H6). cbv zeta in *.
    split; [exact H1|]. split; [exact H2|]. split; [exact H3|].
    split; [apply H4; vm_compute; discriminate|]. split.
    + intros [H|H]; [discriminate|]. rewrite (H5 H). split; reflexivity.
    + intros _. exact H6.
  - cbn [fst snd].
    split; [reflexivity|]. split; [reflexivity|]. split; [reflexivity|].
    split; [reflexivity|]. split; [split; reflexivity|]. discriminate.
Qed.

(** X17. The script goes on only with a non-empty API key: the key of
    the environment when it is set and not empty (then nothing is shown),
    otherwise the typed key after a warning; with neither, the warning is
    shown and the run stops. *)
Theorem api_key_is_never_empty (getenv : option pystr) (typed : pystr) (w : World) :
  let r := check_api_key getenv typed w in
  (forall key, fst r = Some key -> key <> [])
  /\ (forall key, getenv = Some key -> key <> [] -> r = (Some key, w))
  /\ (getenv = None \/ getenv = Some [] ->
      snd r = show w (st_warning no_api_key_warning)
      /\ (typed <> [] -> fst r = Some typed)
      /\ (typed = [] -> fst r = None)).
Proof.
  intros r. unfold r, check_api_key. split; [|split].
  - intros key. destruct getenv as [[|c k]|]; destruct typed; cbn [fst];
      intros [= <-]; discriminate.
  - intros key -> Hk. destruct key; [contradiction | reflexivity].
  - intros [->| ->]; destruct typed; cbn [fst snd];
      (split; [reflexivity|]); split; try reflexivity; try discriminate;
      intros H; contradiction.
Qed.

End ControlFacts.


Lemma sample_buttons_effect_witness :
  let sample := py "Exclusive Invitation to Our Premium Webinar" in
  let r := AppControls.sample_buttons true (only sample) (py "typed") empty_world in
  (exists s, In s AppControls.sample_subjects /\ only sample s = true)
  /\ fst r = sample
  /\ In (fst r) AppControls.sample_subjects
  /\ App.session_state (snd r) !! py "subject" = Some (fst r)
  /\ App.calls (snd r) = [].
Proof.
  intros sample r.
  assert (Hex : exists s, In s AppControls.sample_subjects /\ only sample s = true).
  { exists sample. split; [right; right; now left | vm_compute; reflexivity]. }
  destruct (sample_buttons_effect true (only sample) (py "typed") empty_world)
    as (Hcalls & _ & _ & _ & _ & Hpressed).
  destruct (Hpressed eq_refl Hex) as (Hin & _ & Hst).
  split; [exact Hex|]. split; [vm_compute; reflexivity|].
  split; [exact Hin|]. split; [exact Hst | exact Hcalls].
Defined.

Lemma api_key_is_never_empty_witness :
  let r := AppControls.check_api_key (Some []) (py "gsk-typed") empty_world in
  fst r = Some (py "gsk-typed")
  /\ py "gsk-typed" <> []
  /\ snd r = App.show empty_world (App.st_warning AppControls.no_api_key_warning).
Proof.
  intros r.
  destruct (api_key_is_never_empty (Some []) (py "gsk-typed") empty_world)
    as (Hne & _ & Hwarn).
  destruct (Hwarn (or_intror eq_refl)) as (Hshown & Htyped & _).
  assert (Hnonempty : py "gsk-typed" <> []) by discriminate.
  pose proof (Htyped Hnonempty) as Hkey.
  split; [exact Hkey|]. split; [exact (Hne _ Hkey) | exact Hshown].
Defined.

(** ** More on the chains *)

Section MoreChainFacts.
Import AdvancedFeatures.

Variable backend : Backend.

(** X18. A run without a "subject" input is refused before anything is
    sent: the analysis pipeline and the follow-up chain both raise the
    [ValueError] for missing input keys, which names "subject" as the one
    missing key, make no backend call, and the follow-up chain's memory
    is not written ([run] being called with at least one keyword
    argument). *)
Theorem missing_subject_stops_before_backend
        (client : LLM) (msgs : list message) (inputs : values) (tr : Trace) :
  inputs !! py "subject" = None ->
  (exists sc,
      create_advanced_email_chain client = inr sc
      /\ SequentialChain_call backend sc inputs tr
         = (inl (ValueError (MissingSomeInputKeys [py "subject"])), tr))
  /\ (inputs <> ∅ ->
      LLMChain_run backend (follow_up_chain client msgs) inputs tr
      = (inl (ValueError (MissingSomeInputKeys [py "subject"])), tr)).
Proof.
  intros Hnone. split; [|intros _].
  - eexists. split; [apply create_advanced_email_chain_built|].
    unfold SequentialChain_call, prep_inputs, bind, lift.
    cbn [seq_input_variables forallb List.filter]. unfold has_key. rewrite Hnone.
    reflexivity.
  - unfold LLMChain_run, Chain_call, prep_inputs, bind, lift.
    cbn [memory follow_up_chain prompt input_variables follow_up_prompt forallb
         List.filter].
    unfold has_key, load_memory_variables. cbn [memory_key].
    rewrite lookup_union_r by (apply lookup_singleton_ne; vm_compute; discriminate).
    rewrite Hnone.
    rewrite lookup_union_l' by (rewrite lookup_singleton_eq; eauto).
    rewrite lookup_singleton_eq. reflexivity.
Qed.

(** X19. The history of the follow-up chain comes from its memory only:
    a "chat_history" passed by the caller next to the subject is
    overridden, so the run (the prompt sent, the result, the memory
    afterwards) is the run without it. *)
Theorem supplied_history_is_overridden
        (client : LLM) (msgs : list message) (subject forged : pystr) (tr : Trace) :
  LLMChain_run backend (follow_up_chain client msgs)
    (<[py "chat_history" := Str forged]> {[ py "subject" := Str subject ]}) tr
  = LLMChain_run backend (follow_up_chain client msgs)
      {[ py "subject" := Str subject ]} tr.
Proof.
  assert (Hprep : forall keys,
             prep_inputs keys (memory (follow_up_chain client msgs))
               (<[py "chat_history" := Str forged]> {[ py "subject" := Str subject ]})
             = prep_inputs keys (memory (follow_up_chain client msgs))
                 {[ py "subject" := Str subject ]}).
  { intros keys. unfold prep_inputs. cbn [memory follow_up_chain].
    unfold load_memory_variables. cbn [memory_key chat_memory human_prefix ai_prefix].
    assert (Hu : ({[ py "chat_history"
                     := Str (get_buffer_string msgs (py "Human") (py "AI")) ]}
                  ∪ <[py "chat_history" := Str forged]> {[ py "subject" := Str subject ]}
                  : values)
                 = {[ py "chat_history"
                      := Str (get_buffer_string msgs (py "Human") (py "AI")) ]}
                   ∪ {[ py "subject" := Str subject ]}).
    { apply map_eq. intros k.
      destruct (decide (k = py "chat_history")) as [->|Hk].
      - rewrite !lookup_union_l' by (rewrite lookup_singleton_eq; eauto).
        reflexivity.
      - rewrite !lookup_union_r by (apply lookup_singleton_ne; congruence).
        apply lookup_insert_ne. congruence. }
    now rewrite Hu. }
  unfold LLMChain_run, Chain_call, bind, lift. rewrite Hprep. reflexivity.
Qed.

End MoreChainFacts.

Lemma missing_subject_stops_before_backend_witness :
  let client := OpenAI (7 # 10) 1024 (py "gpt-3.5-turbo-instruct") (py "sk-test") in
  let inputs : values := {[ py "topic" := Str (py "Webinar") ]} in
  inputs !! py "subject" = None
  /\ inputs <> ∅
  /\ LLMChain_run numbered (follow_up_chain client []) inputs []
     = (inl (ValueError (MissingSomeInputKeys [py "subject"])), []).
Proof.
  intros client inputs.
  assert (Hnone : inputs !! py "subject" = None) by (vm_compute; reflexivity).
  assert (Hsome : inputs <> ∅) by apply map_non_empty_singleton.
  split; [exact Hnone|]. split; [exact Hsome|].
  exact (proj2 (missing_subject_stops_before_backend numbered client [] inputs [] Hnone)
           Hsome).
Defined.

(** ** The controls together *)

Section ControlsTogether.
Import App AppControls.

Variable backend : Backend.

(** X20. "Regenerate" after a successful "Generate Email" sends the
    prompt of that generation once more, to the same client, whatever API
    key and model the page holds by then. *)
Theorem regenerate_repeats_last_prompt
        (subject api_key later_key : pystr) (selected_model later_model : model_parameters)
        (w : World) (client : LLM) (sent reply : pystr) :
  subject <> [] ->
  load_llm api_key w = (inr client, set_llm_cache w (Some client)) ->
  format base_prompt {[ py "subject" := Str subject ]} = inr sent ->
  backend (calls w) client sent = inr reply ->
  let w1 := generate_button backend subject api_key selected_model w in
  calls w1 = calls w ++ [(client, sent)]
  /\ calls (fst (regenerate_button backend later_key later_model w1))
     = calls w ++ [(client, sent); (client, sent)].
Proof.
  intros Hs Hload Hfmt Hreply w1.
  pose proof (generate_button_run backend subject api_key selected_model w client
                Hs Hload) as Hrun.
  destruct (base_prompt_renders subject) as [Hsent _].
  set (sent0 := fill (fst (parse (template base_prompt)))
                  {[ py "subject" := Str subject ]}) in *.
  assert (Heq : sent0 = sent) by congruence.
  clearbody sent0. subst sent0.
  cbv zeta in Hrun. rewrite Hreply in Hrun. fold w1 in Hrun.
  split; [rewrite Hrun; reflexivity|].
  destruct (regenerate_button_cases backend later_key later_model w1)
    as [[Hnone _]|(stored & client' & sent' & Hst & Hload' & Hfmt' & _ & Hregen)].
  - rewrite Hrun in Hnone. cbn [session_state set_session_state] in Hnone.
    rewrite lookup_insert_eq in Hnone. discriminate.
  - assert (Hstored : stored = subject).
    { rewrite Hrun in Hst. cbn [session_state set_session_state] in Hst.
      rewrite lookup_insert_eq in Hst. congruence. }
    subst stored.
    assert (Hclient : client' = client).
    { destruct (load_llm_run later_key w1) as (c & Hc & _ & Hold).
      rewrite Hc in Hload'.
      assert (c = client') by congruence. subst c.
      apply Hold. rewrite Hrun. reflexivity. }
    subst client'.
    assert (Hsent' : sent' = sent) by congruence. subst sent'.
    rewrite Hregen.
    assert (Hcalls : calls w1 = calls w ++ [(client, sent)])
      by (rewrite Hrun; reflexivity).
    rewrite Hcalls.
    destruct (backend (calls w ++ [(client, sent)]) client sent);
      cbn [fst calls set_session_state set_calls show]; now rewrite <- app_assoc.
Qed.

(** X21. A sample button followed by "Regenerate": the prompt then
    sent carries the pressed sample as its subject, since the button
    stored it, whatever subject the displayed email was written for. *)
Theorem regenerate_after_sample
        (clicked : pystr -> bool) (typed api_key : pystr)
        (selected_model : model_parameters) (w : World) :
  (exists s, In s sample_subjects /\ clicked s = true) ->
  let r := sample_buttons true clicked typed w in
  In (fst r) sample_subjects
  /\ exists client sent,
      calls (fst (regenerate_button backend api_key selected_model (snd r)))
      = calls w ++ [(client, sent)]
      /\ contains sent (py "SUBJECT: " ++ fst r ++ LF).
Proof.
  intros Hex r.
  destruct (sample_loop_effect sample_subjects clicked typed w)
    as (Hcalls & _ & _ & _ & _ & Hpressed).
  destruct (Hpressed Hex) as (Hin & _ & Hst).
  change (sample_loop sample_subjects clicked typed w) with r in Hcalls, Hin, Hst.
  split; [exact Hin|].
  destruct (regenerate_button_cases backend api_key selected_model (snd r))
    as [[Hnone _]|(stored & client & sent & Hst' & _ & _ & Hc & Hregen)];
    [congruence|].
  assert (stored = fst r) by congruence. subst stored.
  exists client, sent. split; [|exact Hc].
  rewrite Hregen, Hcalls.
  destruct (backend (calls w) client sent); reflexivity.
Qed.

End ControlsTogether.

Lemma regenerate_repeats_last_prompt_witness :
  let subject := py "Webinar reminder" in
  let client := ChatGroq (7 # 10) 1024 (py "llama3-8b-8192") (py "gsk-first") in
  let sent := fill (fst (parse (template base_prompt))) {[ py "subject" := Str subject ]} in
  let w1 := App.generate_button numbered subject (py "gsk-first")
              (App.model_mapping App.llama3_8b_8192) empty_world in
  subject <> []
  /\ format base_prompt {[ py "subject" := Str subject ]} = inr sent
  /\ numbered (App.calls empty_world) client sent = inr (py "reply 0")
  /\ App.calls (fst (AppControls.regenerate_button numbered (py "gsk-second")
                       (App.model_mapping App.llama2_70b_4096) w1))
     = [(client, sent); (client, sent)].
Proof.
  intros subject client sent w1.
  assert (Hs : subject <> []) by discriminate.
  assert (Hfmt : format base_prompt {[ py "subject" := Str subject ]} = inr sent)
    by (vm_compute; reflexivity).
  split; [exact Hs|]. split; [exact Hfmt|]. split; [reflexivity|].
  exact (proj2 (regenerate_repeats_last_prompt numbered subject (py "gsk-first")
                  (py "gsk-second") (App.model_mapping App.llama3_8b_8192)
                  (App.model_mapping App.llama2_70b_4096) empty_world client sent
                  (py "reply 0") Hs eq_refl Hfmt eq_refl)).
Defined.

Lemma regenerate_after_sample_witness :
  let sample := py "Thank You for Our Conversation Yesterday" in
  let r := AppControls.sample_buttons true (only sample) (py "typed") after_first_email in
  (exists s, In s AppControls.sample_subjects /\ only sample s = true)
  /\ fst r = sample
  /\ exists client sent,
      App.calls (fst (AppControls.regenerate_button numbered (py "gsk-test")
                        (App.model_mapping App.llama3_8b_8192) (snd r)))
      = App.calls after_first_email ++ [(client, sent)]
      /\ contains sent (py "SUBJECT: " ++ fst r ++ LF).
Proof.
  intros sample r.
  assert (Hex : exists s, In s AppControls.sample_subjects /\ only sample s = true).
  { exists sample. split; [right; right; right; now left | vm_compute; reflexivity]. }
  split; [exact Hex|]. split; [vm_compute; reflexivity|].
  exact (proj2 (regenerate_after_sample numbered (only sample) (py "typed") (py "gsk-test")
                  (App.model_mapping App.llama3_8b_8192) after_first_email Hex)).
Defined.

(** ** Instances *)

Lemma custom_templates_equal_iff_witness :
  classify (py "formal") = classify (py "formal") /\ true = true
  /\ AdvancedFeatures.create_custom_email_template (py "formal") 1 true
     = AdvancedFeatures.create_custom_email_template (py "formal") 5 true.
Proof.
  split; [reflexivity|]. split; [reflexivity|].
  exact (proj2 (custom_templates_equal_iff (py "formal") (py "formal") 1 5 true true)
           (conj eq_refl eq_refl)).
Defined.

Lemma postscript_iff_requested_witness :
  true = true
  /\ contains (template (AdvancedFeatures.create_custom_email_template (py "urgent") 3 true))
       (py "P.S.").
Proof.
  split; [reflexivity|].
  exact (proj2 (proj1 (postscript_iff_requested (py "urgent") 3 true)) eq_refl).
Defined.

